(** * Refund cases of the furniture shop backend

    A shallow embedding of
      - [src/models/refund_case.py]            (module [RefundCase]),
      - [src/repositories/refund_repository.py] (module [RefundCaseRepository]),
      - [src/services/refund_service.py]        (module [RefundCaseService]),
    followed by the properties of the refund state machine, of the
    eligibility engine and of the conflict detection.

    Python methods that mutate [self] and may raise are functions in a
    state-and-exception monad: the state that a call leaves behind is
    returned also when the call raises, as a caller that catches the
    exception would observe it. *)

From Stdlib Require Import ZArith String Ascii List Lia.
From stdpp Require Import base option list gmap strings pretty.

Local Open Scope string_scope.
Local Open Scope list_scope.
Local Open Scope Z_scope.

(** ** What the code takes from the Python runtime *)

(** Prices and amounts are Python numbers ([float] columns, JSON numbers).
    Their arithmetic is kept abstract: nothing below relies on a law of
    [+] or [*].  [fromisoformat s] stands for
    [datetime.fromisoformat(s).date().toordinal()], and is [None] where
    Python raises [ValueError]. *)
Class Runtime := {
  num : Type;
  num_of_int : Z → num;
  num_add : num → num → num;
  num_mul : num → num → num;
  fromisoformat : string → option Z;
}.

(** ** Exceptions and results *)

Inductive RefundCaseStatus := PENDING | APPROVED | REJECTED | COMPLETED.

Inductive EligibilityStatus := ELIGIBLE | PARTIALLY_ELIGIBLE | INELIGIBLE.

(** One element of the list stored under ["conflicts"] in the details of a
    [BusinessRuleException]. *)
Record Conflict := mkConflict {
  c_refund_id : string;
  c_product_id : string;
  c_status : RefundCaseStatus;
}.

(** Modelled from the spec: [src/middleware/exceptions.py] is not among the
    sources; the three application exceptions are taken from their call
    sites and from section 7 (ValidationError, NotFoundError,
    BusinessRuleViolation with structured detail).  [ValueError],
    [KeyError] and [AttributeError] are Python's. *)
Inductive exn :=
  | ValueError (msg : string)
  | KeyError (key : string)
  | AttributeError (attr : string)
  | NotFoundException (resource identifier : string)
  | BusinessRuleException (msg : string) (details : option (list Conflict))
  | ValidationException (msg : string).

Inductive res (A : Type) :=
  | Ok (a : A)
  | Raise (e : exn).
Arguments Ok {A} a.
Arguments Raise {A} e.

(** A computation over a mutable object (or store) of type [S]. *)
Definition M (S A : Type) : Type := S → res A * S.

Definition ret {S A} (a : A) : M S A := λ s, (Ok a, s).
Definition raise {S A} (e : exn) : M S A := λ s, (Raise e, s).
Definition bind {S A B} (m : M S A) (k : A → M S B) : M S B :=
  λ s, match m s with
       | (Ok a, s') => k a s'
       | (Raise e, s') => (Raise e, s')
       end.
Definition get {S} : M S S := λ s, (Ok s, s).
Definition modify {S} (f : S → S) : M S unit := λ s, (Ok tt, f s).
Definition lift {S A} (r : res A) : M S A := λ s, (r, s).

Declare Scope py_scope.
Delimit Scope py_scope with py.
Notation "x <- m ;;; k" := (bind m (λ x, k))
  (at level 90, m at level 80, right associativity) : py_scope.
Notation "m ;;; k" := (bind m (λ _, k))
  (at level 90, right associativity) : py_scope.

(** Exceptions without state, for the functions that mutate nothing. *)
Definition rbind {A B} (r : res A) (k : A → res B) : res B :=
  match r with Ok a => k a | Raise e => Raise e end.

(** Python truthiness of an optional string: [None] and [""] are falsy. *)
Definition truthy (o : option string) : option string :=
  match o with
  | Some s => if decide (s = "") then None else Some s
  | None => None
  end.

Global Instance RefundCaseStatus_eq_dec : EqDecision RefundCaseStatus.
Proof. solve_decision. Defined.
Global Instance EligibilityStatus_eq_dec : EqDecision EligibilityStatus.
Proof. solve_decision. Defined.

(** The [.value] of the two string enumerations; a member compares equal to
    a [str] exactly when its value does. *)
Definition status_value (s : RefundCaseStatus) : string :=
  match s with
  | PENDING => "Pending"
  | APPROVED => "Approved"
  | REJECTED => "Rejected"
  | COMPLETED => "Completed"
  end.

Definition eligibility_value (s : EligibilityStatus) : string :=
  match s with
  | ELIGIBLE => "Eligible"
  | PARTIALLY_ELIGIBLE => "Partially Eligible"
  | INELIGIBLE => "Ineligible"
  end.

Section Data.
Context `{Runtime}.

(** ** Data model *)

(** A product line of a request: a JSON object, every key optional. *)
Record ProductLine := mkProductLine {
  pl_product_id : option string;
  pl_quantity : option Z;
  pl_name : option string;
  pl_price : option num;
}.

(** An element of [RefundCase.products]. *)
Record RefundProduct := mkRefundProduct {
  product_id : string;
  quantity : Z;
  name : string;
  price : num;
  refund_amount : num;
  delivery_date : option string;
  eligibility : string;
}.

(** An element of [RefundCase.history]; [details] is a dict of strings. *)
Record HistoryEntry := mkHistoryEntry {
  action : string;
  timestamp : Z;
  user_id : string;
  details : list (string * string);
}.

(** The columns of [refund_cases].  The column defaults ([id], [status],
    [created_at]) are applied when the object is built; the nullable
    columns are options. *)
Record RefundCase := mkRefundCase {
  id : string;
  support_case_id : string;
  customer_id : string;
  order_id : string;
  status : RefundCaseStatus;
  eligibility_status : option EligibilityStatus;
  total_refund_amount : num;
  created_at : Z;
  processed_at : option Z;
  rejection_reason : option string;
  agent_id : option string;
  products : list RefundProduct;
  history : list HistoryEntry;
}.

(** An element of [eligible_products] / [ineligible_products]: a dict whose
    keys depend on the branch that built it. *)
Record EligibilityEntry := mkEligibilityEntry {
  e_product_id : string;
  e_eligible : bool;
  e_reason : string;
  e_delivery_date : option string;
  e_days_since_delivery : option Z;
  e_quantity : option Z;
  e_price : option num;
}.

(** The dict returned by [RefundCase.calculate_eligibility]. *)
Record EligibilityResult := mkEligibilityResult {
  r_eligibility_status : string;
  r_eligible_products : list EligibilityEntry;
  r_ineligible_products : list EligibilityEntry;
  r_eligible_count : nat;
  r_ineligible_count : nat;
}.

(** The dict returned by [RefundCaseService.validate_refund_eligibility]. *)
Record EligibilityReport := mkEligibilityReport {
  v_eligibility_status : string;
  v_eligible_products : list EligibilityEntry;
  v_ineligible_products : list EligibilityEntry;
  v_all_eligible : bool;
  v_total_eligible_amount : num;
  v_total_ineligible_amount : num;
}.

(** Modelled from the spec: the support-case model is not among the
    sources.  Section 3 gives its fields; a product of a support case is
    indexed by ["product_id"] and ["quantity"] and read with
    [.get("price", 0)] by the service. *)
Record SupportProduct := mkSupportProduct {
  sp_product_id : string;
  sp_quantity : Z;
  sp_price : option num;
}.

Record SupportCase := mkSupportCase {
  sc_id : string;
  sc_customer_id : string;
  sc_order_id : string;
  sc_status : string;
  sc_products : list SupportProduct;
}.

(** The dict returned by [check_existing_refunds]; the key
    ["conflicting_refunds"] is present only when there are conflicts. *)
Record ConflictCheck := mkConflictCheck {
  has_conflicts : bool;
  conflicting_refunds : option (list Conflict);
  message : string;
}.

End Data.

(** ** [src/models/refund_case.py] *)

Module RefundCase.
Section Model.
Context `{Runtime}.
Local Open Scope py_scope.

(** Field assignments [self.f = v]. *)
Definition set_status (v : RefundCaseStatus) (self : RefundCase) : RefundCase :=
  mkRefundCase (id self) (support_case_id self) (customer_id self)
    (order_id self) v (eligibility_status self) (total_refund_amount self)
    (created_at self) (processed_at self) (rejection_reason self)
    (agent_id self) (products self) (history self).

Definition set_eligibility_status (v : option EligibilityStatus)
    (self : RefundCase) : RefundCase :=
  mkRefundCase (id self) (support_case_id self) (customer_id self)
    (order_id self) (status self) v (total_refund_amount self)
    (created_at self) (processed_at self) (rejection_reason self)
    (agent_id self) (products self) (history self).

Definition set_processed_at (v : option Z) (self : RefundCase) : RefundCase :=
  mkRefundCase (id self) (support_case_id self) (customer_id self)
    (order_id self) (status self) (eligibility_status self)
    (total_refund_amount self) (created_at self) v (rejection_reason self)
    (agent_id self) (products self) (history self).

Definition set_rejection_reason (v : option string)
    (self : RefundCase) : RefundCase :=
  mkRefundCase (id self) (support_case_id self) (customer_id self)
    (order_id self) (status self) (eligibility_status self)
    (total_refund_amount self) (created_at self) (processed_at self) v
    (agent_id self) (products self) (history self).

Definition set_agent_id (v : option string) (self : RefundCase) : RefundCase :=
  mkRefundCase (id self) (support_case_id self) (customer_id self)
    (order_id self) (status self) (eligibility_status self)
    (total_refund_amount self) (created_at self) (processed_at self)
    (rejection_reason self) v (products self) (history self).

Definition set_history (v : list HistoryEntry) (self : RefundCase) : RefundCase :=
  mkRefundCase (id self) (support_case_id self) (customer_id self)
    (order_id self) (status self) (eligibility_status self)
    (total_refund_amount self) (created_at self) (processed_at self)
    (rejection_reason self) (agent_id self) (products self) v.

(** [add_history_entry]: append one entry, stamped with the clock reading
    [now] of [datetime.utcnow()]. *)
Definition add_history_entry (action user_id : string)
    (details : list (string * string)) (now : Z) : M RefundCase unit :=
  self <- get ;;;
  let current_history := history self in
  modify (set_history
            (current_history ++ [mkHistoryEntry action now user_id details])).

(** [approve_refund]; [now] is the reading of the clock during the call
    (one reading stands for the two calls of [datetime.utcnow()]). *)
Definition approve_refund (agent_id : string) (now : Z) : M RefundCase unit :=
  self <- get ;;;
  if decide (status self ≠ PENDING)
  then raise (ValueError "Only pending refunds can be approved")
  else
    modify (set_status APPROVED) ;;;
    modify (set_processed_at (Some now)) ;;;
    modify (set_agent_id (Some agent_id)) ;;;
    add_history_entry "refund_approved" agent_id [("status", "Approved")] now.

(** [reject_refund]. *)
Definition reject_refund (agent_id reason : string) (now : Z)
    : M RefundCase unit :=
  self <- get ;;;
  if decide (status self ≠ PENDING)
  then raise (ValueError "Only pending refunds can be rejected")
  else
    modify (set_status REJECTED) ;;;
    modify (set_processed_at (Some now)) ;;;
    modify (set_agent_id (Some agent_id)) ;;;
    modify (set_rejection_reason (Some reason)) ;;;
    add_history_entry "refund_rejected" agent_id
      [("status", "Rejected"); ("reason", reason)] now.

(** [complete_refund]. *)
Definition complete_refund (now : Z) : M RefundCase unit :=
  self <- get ;;;
  if decide (status self ≠ APPROVED)
  then raise (ValueError "Only approved refunds can be completed")
  else
    modify (set_status COMPLETED) ;;;
    add_history_entry "refund_completed" "system" [("status", "Completed")] now.

(** The [ValueError] of [datetime.fromisoformat]; its message quotes the
    string ([repr], here for a string without quotes or escapes). *)
Definition invalid_isoformat (s : string) : exn :=
  ValueError ("Invalid isoformat string: '" +:+ s +:+ "'").

Definition within_window_entry (product_id s : string) (days : Z)
    : EligibilityEntry :=
  mkEligibilityEntry product_id true "Within 14-day refund window"
    (Some s) (Some days) None None.

Definition exceeds_reason (days : Z) : string :=
  "Exceeds 14-day refund window by " +:+ pretty (days - 14) +:+ " days".

Definition exceeds_window_entry (product_id s : string) (days : Z)
    : EligibilityEntry :=
  mkEligibilityEntry product_id false (exceeds_reason days)
    (Some s) (Some days) None None.

Definition no_delivery_date_entry (product_id : string) : EligibilityEntry :=
  mkEligibilityEntry product_id false "No delivery date available"
    None None None None.

(** The [for product in self.products] loop of [calculate_eligibility],
    with its two accumulators; [today] is [datetime.utcnow().date()] as an
    ordinal. *)
Fixpoint calculate_eligibility_loop (today : Z)
    (delivery_dates : gmap string string) (products : list RefundProduct)
    (eligible_products ineligible_products : list EligibilityEntry)
    : res (list EligibilityEntry * list EligibilityEntry) :=
  match products with
  | [] => Ok (eligible_products, ineligible_products)
  | product :: rest =>
    let product_id := product_id product in
    match truthy (delivery_dates !! product_id) with
    | Some delivery_date_str =>
      match fromisoformat delivery_date_str with
      | None => Raise (invalid_isoformat delivery_date_str)
      | Some delivery_date =>
        let days_since_delivery := today - delivery_date in
        if decide (days_since_delivery ≤ 14)
        then calculate_eligibility_loop today delivery_dates rest
               (eligible_products ++
                  [within_window_entry product_id delivery_date_str
                     days_since_delivery])
               ineligible_products
        else calculate_eligibility_loop today delivery_dates rest
               eligible_products
               (ineligible_products ++
                  [exceeds_window_entry product_id delivery_date_str
                     days_since_delivery])
      end
    | None =>
      calculate_eligibility_loop today delivery_dates rest
        eligible_products
        (ineligible_products ++ [no_delivery_date_entry product_id])
    end
  end.

(** "Determine overall eligibility status". *)
Definition overall_status (eligible_products ineligible_products
    : list EligibilityEntry) : EligibilityStatus :=
  if decide (length ineligible_products = 0%nat) then ELIGIBLE
  else if decide (0 < length eligible_products)%nat then PARTIALLY_ELIGIBLE
  else INELIGIBLE.

(** [calculate_eligibility]. *)
Definition calculate_eligibility (delivery_dates : gmap string string)
    (today : Z) : M RefundCase EligibilityResult :=
  self <- get ;;;
  buckets <- lift (calculate_eligibility_loop today delivery_dates
                     (products self) [] []) ;;;
  let eligible_products := buckets.1 in
  let ineligible_products := buckets.2 in
  let eligibility_status := overall_status eligible_products ineligible_products in
  modify (set_eligibility_status (Some eligibility_status)) ;;;
  ret (mkEligibilityResult (eligibility_value eligibility_status)
         eligible_products ineligible_products
         (length eligible_products) (length ineligible_products)).

(** [to_dict]: the dictionary carries the thirteen fields of the record;
    [self.eligibility_status.value] raises on an unset status. *)
Definition to_dict (self : RefundCase) : res RefundCase :=
  match eligibility_status self with
  | None => Raise (AttributeError "value")
  | Some _ => Ok self
  end.

(** The loop of [create_from_support_case]: the stored product lines and
    the running total. *)
Fixpoint create_loop (delivery_dates : gmap string string)
    (products : list ProductLine) (refund_products : list RefundProduct)
    (total_amount : num) : res (list RefundProduct * num) :=
  match products with
  | [] => Ok (refund_products, total_amount)
  | product :: rest =>
    match pl_product_id product with
    | None => Raise (KeyError "product_id")
    | Some product_id =>
      match pl_quantity product with
      | None => Raise (KeyError "quantity")
      | Some quantity =>
        let price := default (num_of_int 0) (pl_price product) in
        let refund_amount := num_mul price (num_of_int quantity) in
        let total_amount := num_add total_amount refund_amount in
        let delivery_date := delivery_dates !! product_id in
        create_loop delivery_dates rest
          (refund_products ++
             [mkRefundProduct product_id quantity
                (default "" (pl_name product)) price refund_amount
                delivery_date "Eligible"])
          total_amount
      end
    end
  end.

(** [create_from_support_case].  [new_id] and [now] feed the column
    defaults of [id] and [created_at]; [now] is also the clock reading of
    the history entry. *)
Definition create_from_support_case (support_case_id customer_id order_id : string)
    (products : list ProductLine) (delivery_dates : gmap string string)
    (new_id : string) (now today : Z) : res RefundCase :=
  rbind (create_loop delivery_dates products [] (num_of_int 0)) (λ lines,
    let refund_case :=
      mkRefundCase new_id support_case_id customer_id order_id PENDING None
        lines.2 now None None None lines.1 [] in
    let run :=
      (eligibility_result <- calculate_eligibility delivery_dates today ;;;
       add_history_entry "refund_requested" customer_id
         [("initial_status", "Pending");
          ("eligibility", r_eligibility_status eligibility_result)] now)
        refund_case in
    match run with
    | (Ok _, refund_case) => Ok refund_case
    | (Raise e, _) => Raise e
    end).

End Model.
End RefundCase.

(** ** The persistence collaborator *)

(** Modelled from the spec: [src/repositories/base_repository.py] is not
    among the sources.  Section 6 lists what the core consumes from it:
    [get(id)], [findByField(field, value)], [create(record)] and
    [update(id, record)].  The table is the sequence of its rows, in
    insertion order. *)
Module BaseRepository.
Section Table.
Context `{Runtime}.

Definition find_by_id (table : list RefundCase) (key : string)
    : option RefundCase :=
  List.find (λ row, bool_decide (id row = key)) table.

(** The string-valued columns that a query can name. *)
Definition column (field : string) (row : RefundCase) : option string :=
  if decide (field = "id") then Some (id row)
  else if decide (field = "support_case_id") then Some (support_case_id row)
  else if decide (field = "customer_id") then Some (customer_id row)
  else if decide (field = "order_id") then Some (order_id row)
  else if decide (field = "status") then Some (status_value (status row))
  else None.

Definition find_all_by_field (field value : string)
    (table : list RefundCase) : list RefundCase :=
  List.filter (λ row, bool_decide (column field row = Some value)) table.

Definition create (entity : RefundCase) : M (list RefundCase) RefundCase :=
  λ table, (Ok entity, table ++ [entity]).

Definition update (key : string) (data : RefundCase)
    : M (list RefundCase) RefundCase :=
  λ table,
    (Ok data,
     List.map (λ row, if decide (id row = key) then data else row) table).

(** A page of a query: [limit] rows after the first [skip] matches (the
    offset and the limit of the query, both natural numbers). *)
Definition find_page (field value : string) (skip limit : nat)
    (table : list RefundCase) : list RefundCase :=
  take limit (drop skip (find_all_by_field field value table)).

End Table.
End BaseRepository.

(** ** [src/repositories/refund_repository.py] *)

Module RefundCaseRepository.
Section Repository.
Context `{Runtime}.
Local Open Scope py_scope.

(** [create_refund_case]. *)
Definition create_refund_case (support_case_id customer_id order_id : string)
    (products : list ProductLine) (delivery_dates : gmap string string)
    (new_id : string) (now today : Z) : M (list RefundCase) RefundCase :=
  refund_case <- lift (RefundCase.create_from_support_case support_case_id
                         customer_id order_id products delivery_dates
                         new_id now today) ;;;
  BaseRepository.create refund_case.

(** [find_by_support_case]. *)
Definition find_by_support_case (table : list RefundCase)
    (support_case_id : string) : list RefundCase :=
  BaseRepository.find_all_by_field "support_case_id" support_case_id table.

(** A guarded transition: look the case up, check its status against the
    string [required], run the method of the model on the object found and
    store the dictionary of the result. *)
Definition transition (refund_id required message : string)
    (method : M RefundCase unit) : M (list RefundCase) RefundCase :=
  table <- get ;;;
  match BaseRepository.find_by_id table refund_id with
  | None => raise (NotFoundException "RefundCase" ("ID " +:+ refund_id))
  | Some refund_case =>
    if decide (status_value (status refund_case) ≠ required)
    then raise (BusinessRuleException message None)
    else
      match method refund_case with
      | (Raise e, _) => raise e
      | (Ok _, refund_case) =>
        data <- lift (RefundCase.to_dict refund_case) ;;;
        BaseRepository.update refund_id data
      end
  end.

(** [approve_refund]. *)
Definition approve_refund (refund_id agent_id : string) (now : Z)
    : M (list RefundCase) RefundCase :=
  transition refund_id "Pending" "Only pending refunds can be approved"
    (RefundCase.approve_refund agent_id now).

(** [reject_refund]. *)
Definition reject_refund (refund_id agent_id reason : string) (now : Z)
    : M (list RefundCase) RefundCase :=
  transition refund_id "Pending" "Only pending refunds can be rejected"
    (RefundCase.reject_refund agent_id reason now).

(** [complete_refund]. *)
Definition complete_refund (refund_id : string) (now : Z)
    : M (list RefundCase) RefundCase :=
  transition refund_id "Approved" "Only approved refunds can be completed"
    (RefundCase.complete_refund now).

(** The test of one product line in [validate_refund_request]:
    [not product.get("product_id") or not product.get("quantity") or
     product["quantity"] < 1]. *)
Definition invalid_line (product : ProductLine) : bool :=
  bool_decide (truthy (pl_product_id product) = None)
  || match pl_quantity product with
     | None => true
     | Some quantity => bool_decide (quantity = 0) || bool_decide (quantity < 1)
     end.

Fixpoint validate_lines (products : list ProductLine) : res unit :=
  match products with
  | [] => Ok tt
  | product :: rest =>
    if invalid_line product
    then Raise (ValidationException
                  "Each product must have a valid product_id and quantity >= 1")
    else validate_lines rest
  end.

(** [validate_refund_request]; the dict returned on success is
    [(valid, message)]. *)
Definition validate_refund_request (support_case_id customer_id : string)
    (products : list ProductLine) : res (bool * string) :=
  if bool_decide (support_case_id = "") || bool_decide (customer_id = "")
  then Raise (ValidationException
                "Support case ID and customer ID are required")
  else if bool_decide (length products = 0%nat)
  then Raise (ValidationException
                "At least one product must be specified for refund")
  else rbind (validate_lines products) (λ _,
         Ok (true, "Refund request data is valid")).

(** The inner loop of [check_existing_refunds], over the products of one
    active refund case. *)
Fixpoint conflicts_of_case (refund_case : RefundCase)
    (products : list RefundProduct) (product_ids : list string)
    (conflicting_refunds : list Conflict) : list Conflict :=
  match products with
  | [] => conflicting_refunds
  | product :: rest =>
    if decide (product_id product ∈ product_ids)
    then conflicts_of_case refund_case rest product_ids
           (conflicting_refunds ++
              [mkConflict (id refund_case) (product_id product)
                 (status refund_case)])
    else conflicts_of_case refund_case rest product_ids conflicting_refunds
  end.

(** The outer loop of [check_existing_refunds]. *)
Fixpoint conflicts_loop (existing_refunds : list RefundCase)
    (product_ids : list string) (conflicting_refunds : list Conflict)
    : list Conflict :=
  match existing_refunds with
  | [] => conflicting_refunds
  | refund_case :: rest =>
    if decide (status_value (status refund_case) ∈ ["Pending"; "Approved"])
    then conflicts_loop rest product_ids
           (conflicts_of_case refund_case (products refund_case) product_ids
              conflicting_refunds)
    else conflicts_loop rest product_ids conflicting_refunds
  end.

(** [check_existing_refunds]. *)
Definition check_existing_refunds (table : list RefundCase)
    (support_case_id : string) (product_ids : list string) : ConflictCheck :=
  let existing_refunds := find_by_support_case table support_case_id in
  let conflicting_refunds := conflicts_loop existing_refunds product_ids [] in
  match conflicting_refunds with
  | _ :: _ =>
    mkConflictCheck true (Some conflicting_refunds)
      "Some products already have active refund requests"
  | [] => mkConflictCheck false None "No conflicting refund requests found"
  end.

(** [find_by_customer], with its parameters [skip] and [limit] (0 and 100
    when the caller passes none). *)
Definition find_by_customer (table : list RefundCase) (customer_id : string)
    (skip limit : nat) : list RefundCase :=
  BaseRepository.find_page "customer_id" customer_id skip limit table.

End Repository.
End RefundCaseRepository.

(** ** The cache collaborator *)

(** Modelled from the spec: [src/cache.py] is not among the sources.
    Section 6 lists [get(key)], [set(key, value)] and [delete(key)]; the
    cache is a finite map from keys to cached listings, without expiry. *)
Module Cache.
Section Store.
Context `{Runtime}.

Definition get (cache : gmap string (list RefundCase)) (key : string)
    : option (list RefundCase) :=
  cache !! key.

Definition set (key : string) (value : list RefundCase)
    (cache : gmap string (list RefundCase)) : gmap string (list RefundCase) :=
  <[key := value]> cache.

Definition delete (key : string) (cache : gmap string (list RefundCase))
    : gmap string (list RefundCase) :=
  base.delete key cache.

End Store.
End Cache.

(** ** [src/services/refund_service.py] *)

(** Every method of the service wraps its body in
    [try: ... except Exception as e: logger.error(...); raise], which logs
    and re-raises the same exception; the cache calls are advisory.  The
    support cases are read through [support_repository.find_by_id],
    modelled as a lookup in a finite map. *)
Module RefundCaseService.
Section Service.
Context `{Runtime}.
Local Open Scope py_scope.

(** The attribute [refund_case.customer_id], where a parameter of the same
    name is in scope. *)
Local Abbreviation customer_id_of := customer_id (only parsing).

Local Abbreviation status_of := status (only parsing).

Definition access_denied_support_case : exn :=
  BusinessRuleException
    "Access denied: Customer does not own this support case" None.

(** [[p["product_id"] for p in products]]. *)
Fixpoint requested_ids (products : list ProductLine) : res (list string) :=
  match products with
  | [] => Ok []
  | product :: rest =>
    match pl_product_id product with
    | None => Raise (KeyError "product_id")
    | Some product_id =>
      rbind (requested_ids rest) (λ ids, Ok (product_id :: ids))
    end
  end.

(** [create_refund_request]. *)
Definition create_refund_request (support : gmap string SupportCase)
    (support_case_id customer_id : string) (products : list ProductLine)
    (delivery_dates : gmap string string) (new_id : string) (now today : Z)
    : M (list RefundCase) RefundCase :=
  lift (RefundCaseRepository.validate_refund_request support_case_id
          customer_id products) ;;;
  match support !! support_case_id with
  | None => raise (NotFoundException "SupportCase" ("ID " +:+ support_case_id))
  | Some support_case =>
    if decide (sc_customer_id support_case ≠ customer_id)
    then raise access_denied_support_case
    else if decide (sc_status support_case ≠ "Open")
    then raise (BusinessRuleException
                  "Refund requests can only be created from open support cases"
                  None)
    else
      product_ids <- lift (requested_ids products) ;;;
      table <- get ;;;
      let conflict_check :=
        RefundCaseRepository.check_existing_refunds table support_case_id
          product_ids in
      if has_conflicts conflict_check
      then raise (BusinessRuleException
                    "Some products already have active refund requests"
                    (conflicting_refunds conflict_check))
      else
        RefundCaseRepository.create_refund_case support_case_id customer_id
          (sc_order_id support_case) products delivery_dates new_id now today
  end.

(** [get_refund_case]. *)
Definition get_refund_case (table : list RefundCase)
    (refund_id customer_id : string) : res RefundCase :=
  match BaseRepository.find_by_id table refund_id with
  | None => Raise (NotFoundException "RefundCase" ("ID " +:+ refund_id))
  | Some refund_case =>
    if decide (customer_id_of refund_case ≠ customer_id)
    then Raise (BusinessRuleException
                  "Access denied: Customer does not own this refund case" None)
    else Ok refund_case
  end.

(** [get_refund_cases_by_support_case]. *)
Definition get_refund_cases_by_support_case (support : gmap string SupportCase)
    (table : list RefundCase) (support_case_id customer_id : string)
    : res (list RefundCase) :=
  match support !! support_case_id with
  | None => Raise access_denied_support_case
  | Some support_case =>
    if decide (sc_customer_id support_case ≠ customer_id)
    then Raise access_denied_support_case
    else Ok (RefundCaseRepository.find_by_support_case table support_case_id)
  end.

(** [{p["product_id"]: p for p in support_case.products}]: a later product
    with the same id replaces an earlier one. *)
Definition support_case_products (support_case : SupportCase)
    : gmap string SupportProduct :=
  foldl (λ m p, <[sp_product_id p := p]> m) ∅ (sc_products support_case).

Definition not_found_entry (product_id : string) : EligibilityEntry :=
  mkEligibilityEntry product_id false "Product not found in support case"
    None None None None.

Definition no_delivery_date_entry (product_id : string) : EligibilityEntry :=
  mkEligibilityEntry product_id false "No delivery date available for product"
    None None None None.

Definition invalid_date_entry (product_id : string) : EligibilityEntry :=
  mkEligibilityEntry product_id false "Invalid delivery date format"
    None None None None.

Definition within_window_entry (product : SupportProduct)
    (product_id s : string) (days : Z) : EligibilityEntry :=
  mkEligibilityEntry product_id true "Within 14-day refund window"
    (Some s) (Some days) (Some (sp_quantity product))
    (Some (default (num_of_int 0) (sp_price product))).

Definition exceeds_window_entry (product : SupportProduct)
    (product_id s : string) (days : Z) : EligibilityEntry :=
  mkEligibilityEntry product_id false (RefundCase.exceeds_reason days)
    (Some s) (Some days) (Some (sp_quantity product))
    (Some (default (num_of_int 0) (sp_price product))).

(** The [for product_id in product_ids] loop of
    [validate_refund_eligibility]. *)
Fixpoint eligibility_loop (today : Z)
    (support_case_products : gmap string SupportProduct)
    (delivery_dates : gmap string string) (product_ids : list string)
    (eligible_products ineligible_products : list EligibilityEntry)
    : list EligibilityEntry * list EligibilityEntry :=
  match product_ids with
  | [] => (eligible_products, ineligible_products)
  | product_id :: rest =>
    match support_case_products !! product_id with
    | None =>
      eligibility_loop today support_case_products delivery_dates rest
        eligible_products (ineligible_products ++ [not_found_entry product_id])
    | Some product =>
      match truthy (delivery_dates !! product_id) with
      | None =>
        eligibility_loop today support_case_products delivery_dates rest
          eligible_products
          (ineligible_products ++ [no_delivery_date_entry product_id])
      | Some delivery_date_str =>
        match fromisoformat delivery_date_str with
        | Some delivery_date =>
          let days_since_delivery := today - delivery_date in
          if decide (days_since_delivery ≤ 14)
          then eligibility_loop today support_case_products delivery_dates
                 rest
                 (eligible_products ++
                    [within_window_entry product product_id delivery_date_str
                       days_since_delivery])
                 ineligible_products
          else eligibility_loop today support_case_products delivery_dates
                 rest eligible_products
                 (ineligible_products ++
                    [exceeds_window_entry product product_id delivery_date_str
                       days_since_delivery])
        | None =>
          eligibility_loop today support_case_products delivery_dates rest
            eligible_products
            (ineligible_products ++ [invalid_date_entry product_id])
        end
      end
    end
  end.

(** "Determine overall eligibility". *)
Definition overall_status (eligible_products ineligible_products
    : list EligibilityEntry) : string :=
  if decide (length ineligible_products = 0%nat) then "Eligible"
  else if decide (0 < length eligible_products)%nat then "Partially Eligible"
  else "Ineligible".

(** [sum(p["price"] * p["quantity"] for p in entries)], from the running
    value [acc] ([sum] starts at 0). *)
Fixpoint sum_amounts (acc : num) (entries : list EligibilityEntry) : res num :=
  match entries with
  | [] => Ok acc
  | p :: rest =>
    match e_price p with
    | None => Raise (KeyError "price")
    | Some price =>
      match e_quantity p with
      | None => Raise (KeyError "quantity")
      | Some quantity =>
        sum_amounts (num_add acc (num_mul price (num_of_int quantity))) rest
      end
    end
  end.

(** [validate_refund_eligibility]. *)
Definition validate_refund_eligibility (support : gmap string SupportCase)
    (support_case_id customer_id : string) (product_ids : list string)
    (delivery_dates : gmap string string) (today : Z) : res EligibilityReport :=
  match support !! support_case_id with
  | None => Raise access_denied_support_case
  | Some support_case =>
    if decide (sc_customer_id support_case ≠ customer_id)
    then Raise access_denied_support_case
    else
      let buckets :=
        eligibility_loop today (support_case_products support_case)
          delivery_dates product_ids [] [] in
      let eligible_products := buckets.1 in
      let ineligible_products := buckets.2 in
      let eligibility_status :=
        overall_status eligible_products ineligible_products in
      rbind (sum_amounts (num_of_int 0) eligible_products)
        (λ total_eligible_amount,
         rbind (sum_amounts (num_of_int 0) ineligible_products)
           (λ total_ineligible_amount,
            Ok (mkEligibilityReport eligibility_status eligible_products
                  ineligible_products
                  (bool_decide (length ineligible_products = 0%nat))
                  total_eligible_amount total_ineligible_amount)))
  end.

(** The cache key of a listing:
    [f"refund_cases:{customer_id}:{status or 'all'}"]. *)
Definition listing_key (customer_id : string) (status : option string)
    : string :=
  "refund_cases:" +:+ customer_id +:+ ":" +:+ default "all" (truthy status).

(** [get_customer_refund_cases], on a table: a cached listing is served when
    it is truthy (present and not empty); otherwise the first 100 refund
    cases of the customer are read, filtered by [status] when one is given,
    cached and returned. *)
Definition get_customer_refund_cases (table : list RefundCase)
    (customer_id : string) (status : option string)
    (cache : gmap string (list RefundCase))
    : list RefundCase * gmap string (list RefundCase) :=
  let cache_key := listing_key customer_id status in
  match Cache.get cache cache_key with
  | Some (case :: cached_cases) => (case :: cached_cases, cache)
  | _ =>
    let cases := RefundCaseRepository.find_by_customer table customer_id 0 100 in
    let cases :=
      match truthy status with
      | Some status =>
        List.filter
          (λ case, bool_decide (status_value (status_of case) = status))
          cases
      | None => cases
      end in
    (cases, Cache.set cache_key cases cache)
  end.

(** The "Clear cache" step of [create_refund_request], run after a
    creation: [cache.delete(f"refund_cases:{customer_id}")] and
    [cache.delete(f"support_case:{support_case_id}")]. *)
Definition clear_cache (customer_id support_case_id : string)
    (cache : gmap string (list RefundCase)) : gmap string (list RefundCase) :=
  Cache.delete ("support_case:" +:+ support_case_id)
    (Cache.delete ("refund_cases:" +:+ customer_id) cache).

End Service.
End RefundCaseService.

(** ** A concrete runtime and concrete data, for running the definitions *)

Module Example.

(** Python's [date.toordinal]: day 1 is 0001-01-01. *)
Definition is_leap (y : Z) : bool :=
  bool_decide (y mod 4 = 0)
  && (bool_decide (y mod 100 ≠ 0) || bool_decide (y mod 400 = 0)).

Definition days_in_month (y m : Z) : Z :=
  if bool_decide (m = 2) then (if is_leap y then 29 else 28)
  else if bool_decide (m ∈ [4; 6; 9; 11]) then 30 else 31.

Definition days_before_year (y : Z) : Z :=
  let y := y - 1 in y * 365 + y / 4 - y / 100 + y / 400.

Definition days_before_month (y m : Z) : Z :=
  foldr Z.add 0 (days_in_month y <$> seqZ 1 (m - 1)).

Definition ymd2ord (y m d : Z) : Z :=
  days_before_year y + days_before_month y m + d.

Definition digit (c : ascii) : option Z :=
  let n := Z.of_nat (nat_of_ascii c) - 48 in
  if decide (0 ≤ n ≤ 9) then Some n else None.

Fixpoint digits (acc : Z) (cs : list ascii) : option Z :=
  match cs with
  | [] => Some acc
  | c :: cs => d ← digit c; digits (10 * acc + d) cs
  end.

(** The calendar form [YYYY-MM-DD] of an ISO date; any other string is
    rejected. *)
Definition iso_date (s : string) : option Z :=
  match list_ascii_of_string s with
  | [y1; y2; y3; y4; a; m1; m2; b; d1; d2] =>
    if bool_decide (a = "-"%char) && bool_decide (b = "-"%char) then
      y ← digits 0 [y1; y2; y3; y4];
      m ← digits 0 [m1; m2];
      d ← digits 0 [d1; d2];
      if bool_decide (1 ≤ y) && bool_decide (1 ≤ m ≤ 12)
         && bool_decide (1 ≤ d ≤ days_in_month y m)
      then Some (ymd2ord y m d) else None
    else None
  | _ => None
  end.

(** Integer amounts, and [iso_date] for the dates. *)
Definition runtime : Runtime :=
  {| num := Z;
     num_of_int := λ z, z;
     num_add := Z.add;
     num_mul := Z.mul;
     fromisoformat := iso_date |}.
#[local] Existing Instance runtime.

Definition today : Z := ymd2ord 2024 3 15.

Definition P1 : ProductLine :=
  mkProductLine (Some "P1") (Some 2) (Some "Oak table") (Some 10).
Definition P2 : ProductLine :=
  mkProductLine (Some "P2") (Some 1) None None.

Definition SC1 : SupportCase :=
  mkSupportCase "SC1" "C1" "O1" "Open"
    [mkSupportProduct "P1" 2 (Some 10); mkSupportProduct "P2" 1 None].

Definition SC2 : SupportCase :=
  mkSupportCase "SC2" "C1" "O2" "Closed" [mkSupportProduct "P1" 2 (Some 10)].

Definition support : gmap string (SupportCase) :=
  <["SC1" := SC1]> (<["SC2" := SC2]> ∅).

(** P1 delivered 14 days before [today], P2 15 days before. *)
Definition dates : gmap string string :=
  <["P1" := "2024-03-01"]> (<["P2" := "2024-02-29"]> ∅).

(** The stored line of P1, and a refund case on it with the given id,
    support case and status. *)
Definition stored_P1 : RefundProduct :=
  mkRefundProduct "P1" 2 "Oak table" 10 20 (Some "2024-03-01") "Eligible".

Definition case (key support_case_id : string) (st : RefundCaseStatus)
    : RefundCase :=
  mkRefundCase key support_case_id "C1" "O1" st (Some ELIGIBLE) 20 0 None None
    None [stored_P1]
    [mkHistoryEntry "refund_requested" 0 "C1"
       [("initial_status", "Pending"); ("eligibility", "Eligible")]].

End Example.

(** ** Vocabulary of the statements *)

(** What a call does from a state: it returns a value, or it raises. *)
Definition succeeds {S A} (m : M S A) (s : S) : Prop := ∃ a, (m s).1 = Ok a.
Definition fails_with {S A} (m : M S A) (s : S) (e : exn) : Prop :=
  (m s).1 = Raise e.

(** A call guarded by [holds]: it returns when [holds], and raises [e]
    otherwise. *)
Definition guarded_by {S A} (m : M S A) (s : S) (holds : Prop) (e : exn)
    : Prop :=
  (holds → succeeds m s) ∧ (¬ holds → fails_with m s e).

Section Vocabulary.
Context `{Runtime}.

(** A method guarded by [status = required] in the model. *)
Definition model_guard (method : M RefundCase unit)
    (required : RefundCaseStatus) (message : string) : Prop :=
  ∀ rc, (status rc = required → ∃ rc', method rc = (Ok tt, rc'))
        ∧ (status rc ≠ required → method rc = (Raise (ValueError message), rc)).

(** The methods leave [eligibility_status] alone. *)
Definition keeps_eligibility (method : M RefundCase unit) : Prop :=
  ∀ rc, eligibility_status (method rc).2 = eligibility_status rc.

(** The operations that act on a refund case after its creation, with
    their arguments and clock readings. *)
Inductive operation :=
  | Approve (agent_id : string) (now : Z)
  | Reject (agent_id reason : string) (now : Z)
  | Complete (now : Z)
  | Recompute (delivery_dates : gmap string string) (today : Z).

(** The record after one operation, whether the call returned or raised. *)
Definition after (rc : RefundCase) (op : operation) : RefundCase :=
  match op with
  | Approve agent now => (RefundCase.approve_refund agent now rc).2
  | Reject agent reason now => (RefundCase.reject_refund agent reason now rc).2
  | Complete now => (RefundCase.complete_refund now rc).2
  | Recompute dates today => (RefundCase.calculate_eligibility dates today rc).2
  end.

(** A stored line mirrors a submitted line: a missing price is 0, a missing
    name is empty, the delivery date is the entry of the mapping. *)
Definition line_stored (delivery_dates : gmap string string)
    (line : ProductLine) (p : RefundProduct) : Prop :=
  pl_product_id line = Some (product_id p)
  ∧ pl_quantity line = Some (quantity p)
  ∧ name p = default "" (pl_name line)
  ∧ price p = default (num_of_int 0) (pl_price line)
  ∧ refund_amount p = num_mul (price p) (num_of_int (quantity p))
  ∧ delivery_date p = delivery_dates !! product_id p
  ∧ eligibility p = "Eligible".

(** The sum of price times quantity, accumulated from 0 in line order. *)
Definition sum_price_quantity (lines : list RefundProduct) : num :=
  foldl (λ acc p, num_add acc (num_mul (price p) (num_of_int (quantity p))))
    (num_of_int 0) lines.

(** How the delivery date of a product id reads on the day [today]: the
    three branches of both eligibility loops. *)
Inductive date_reading :=
  | NoDate
  | Malformed (s : string)
  | Delivered (s : string) (days_since_delivery : Z).

Definition read_date (today : Z) (delivery_dates : gmap string string)
    (product_id : string) : date_reading :=
  match truthy (delivery_dates !! product_id) with
  | None => NoDate
  | Some s =>
    match fromisoformat s with
    | None => Malformed s
    | Some d => Delivered s (today - d)
    end
  end.

(** The entry that [calculate_eligibility] builds for a product id whose
    date is not malformed. *)
Definition line_entry (today : Z) (delivery_dates : gmap string string)
    (pid : string) : option EligibilityEntry :=
  match read_date today delivery_dates pid with
  | NoDate => Some (RefundCase.no_delivery_date_entry pid)
  | Malformed _ => None
  | Delivered s days =>
    Some (if decide (days ≤ 14) then RefundCase.within_window_entry pid s days
          else RefundCase.exceeds_window_entry pid s days)
  end.

(** The first malformed delivery date met by [calculate_eligibility]. *)
Fixpoint first_malformed (today : Z) (delivery_dates : gmap string string)
    (products : list RefundProduct) : option string :=
  match products with
  | [] => None
  | p :: rest =>
    match read_date today delivery_dates (product_id p) with
    | Malformed s => Some s
    | _ => first_malformed today delivery_dates rest
    end
  end.

(** The entry that [validate_refund_eligibility] builds for a product id. *)
Definition check_entry (today : Z)
    (support_case_products : gmap string SupportProduct)
    (delivery_dates : gmap string string) (pid : string) : EligibilityEntry :=
  match support_case_products !! pid with
  | None => RefundCaseService.not_found_entry pid
  | Some product =>
    match read_date today delivery_dates pid with
    | NoDate => RefundCaseService.no_delivery_date_entry pid
    | Malformed _ => RefundCaseService.invalid_date_entry pid
    | Delivered s days =>
      if decide (days ≤ 14)
      then RefundCaseService.within_window_entry product pid s days
      else RefundCaseService.exceeds_window_entry product pid s days
    end
  end.

Definition is_eligible (e : EligibilityEntry) : bool := e_eligible e.
Definition is_ineligible (e : EligibilityEntry) : bool := negb (e_eligible e).

(** A bucket lists a product id; a bucket holds a judgement on it. *)
Definition listed_in (bucket : list EligibilityEntry) (pid : string) : Prop :=
  ∃ e, e ∈ bucket ∧ e_product_id e = pid.

Definition judged (bucket : list EligibilityEntry) (pid : string)
    (eligible : bool) (reason : string) : Prop :=
  ∃ e, e ∈ bucket ∧ e_product_id e = pid ∧ e_eligible e = eligible
       ∧ e_reason e = reason.

(** A product id whose delivery date is supplied, well formed and at most
    14 days back. *)
Definition in_window (today : Z) (delivery_dates : gmap string string)
    (pid : string) : bool :=
  match read_date today delivery_dates pid with
  | Delivered _ days => bool_decide (days ≤ 14)
  | _ => false
  end.

(** An entry that carries both keys read by the totals of the report. *)
Definition priced (e : EligibilityEntry) : Prop :=
  is_Some (e_price e) ∧ is_Some (e_quantity e).

(** The two buckets that the loop of the standalone check fills. *)
Definition check_buckets (today : Z) (support_case : SupportCase)
    (delivery_dates : gmap string string) (product_ids : list string)
    : list EligibilityEntry * list EligibilityEntry :=
  RefundCaseService.eligibility_loop today
    (RefundCaseService.support_case_products support_case) delivery_dates
    product_ids [] [].

(** The 14-day rule for a product id delivered [days] days before the
    evaluation date, read on the two buckets of a report. *)
Definition window_rule (eligible_products ineligible_products
    : list EligibilityEntry) (pid : string) (days : Z) : Prop :=
  (listed_in eligible_products pid ↔ days ≤ 14)
  ∧ (listed_in ineligible_products pid ↔ 14 < days)
  ∧ (days ≤ 14 →
     judged eligible_products pid true "Within 14-day refund window")
  ∧ (14 < days →
     judged ineligible_products pid false (RefundCase.exceeds_reason days)).

(** An active refund case blocks new claims on its products. *)
Definition active (rc : RefundCase) : Prop :=
  status rc = PENDING ∨ status rc = APPROVED.

(** A product id named by a line of the request. *)
Definition requested (lines : list ProductLine) (pid : string) : Prop :=
  ∃ line, line ∈ lines ∧ pl_product_id line = Some pid.

(** [k] is a conflict of the request: a requested product id on a line of
    an active refund case of the same support case, with the id and the
    status of that refund case. *)
Definition conflict_of (table : list RefundCase) (support_case : string)
    (lines : list ProductLine) (k : Conflict) : Prop :=
  ∃ rc p,
    rc ∈ table ∧ support_case_id rc = support_case ∧ active rc
    ∧ p ∈ products rc ∧ requested lines (product_id p)
    ∧ k = mkConflict (id rc) (product_id p) (status rc).

(** The exception that carries the conflict list. *)
Definition conflict_exception (conflicts : list Conflict) : exn :=
  BusinessRuleException "Some products already have active refund requests"
    (Some conflicts).

(** The history entries that an operation appends when it is run from [rc]:
    one entry for a transition that returns, none otherwise. *)
Definition logged (rc : RefundCase) (op : operation) : list HistoryEntry :=
  match op with
  | Approve agent now =>
    if decide (status rc = PENDING)
    then [mkHistoryEntry "refund_approved" now agent [("status", "Approved")]]
    else []
  | Reject agent reason now =>
    if decide (status rc = PENDING)
    then [mkHistoryEntry "refund_rejected" now agent
            [("status", "Rejected"); ("reason", reason)]]
    else []
  | Complete now =>
    if decide (status rc = APPROVED)
    then [mkHistoryEntry "refund_completed" now "system"
            [("status", "Completed")]]
    else []
  | Recompute _ _ => []
  end.

(** The edges of the status graph. *)
Definition legal_step (s s' : RefundCaseStatus) : Prop :=
  (s = PENDING ∧ s' = APPROVED)
  ∨ (s = PENDING ∧ s' = REJECTED)
  ∨ (s = APPROVED ∧ s' = COMPLETED).

(** The shape of the nullable columns and of the history in each status. *)
Definition lifecycle (rc : RefundCase) : Prop :=
  match status rc with
  | PENDING =>
    processed_at rc = None ∧ agent_id rc = None ∧ rejection_reason rc = None
    ∧ action <$> history rc = ["refund_requested"]
  | APPROVED =>
    is_Some (processed_at rc) ∧ is_Some (agent_id rc)
    ∧ rejection_reason rc = None
    ∧ action <$> history rc = ["refund_requested"; "refund_approved"]
  | REJECTED =>
    is_Some (processed_at rc) ∧ is_Some (agent_id rc)
    ∧ is_Some (rejection_reason rc)
    ∧ action <$> history rc = ["refund_requested"; "refund_rejected"]
  | COMPLETED =>
    is_Some (processed_at rc) ∧ is_Some (agent_id rc)
    ∧ rejection_reason rc = None
    ∧ action <$> history rc
      = ["refund_requested"; "refund_approved"; "refund_completed"]
  end.

(** The call returns [rc'] and leaves a table in which [rc'] is the record
    found under [key], every other key finds what it found before, and the
    number of rows is the same. *)
Definition stored (m : M (list RefundCase) RefundCase)
    (table : list RefundCase) (key : string) (rc' : RefundCase) : Prop :=
  ∃ table',
    m table = (Ok rc', table')
    ∧ BaseRepository.find_by_id table' key = Some rc'
    ∧ (∀ other, other ≠ key →
       BaseRepository.find_by_id table' other
       = BaseRepository.find_by_id table other)
    ∧ length table' = length table.

(** A triple listed under ["conflicting_refunds"] by a conflict check. *)
Definition reported (check : ConflictCheck) (k : Conflict) : Prop :=
  ∃ L, conflicting_refunds check = Some L ∧ k ∈ L.

(** The conflict triples of a request, in the order of the table and, for
    each refund case, of its stored lines. *)
Definition conflict_triples (table : list RefundCase) (support_case : string)
    (product_ids : list string) : list Conflict :=
  flat_map
    (λ rc,
       if bool_decide (status rc = PENDING ∨ status rc = APPROVED)
       then List.map (λ p, mkConflict (id rc) (product_id p) (status rc))
              (List.filter (λ p, bool_decide (product_id p ∈ product_ids))
                 (products rc))
       else [])
    (List.filter (λ rc, bool_decide (support_case_id rc = support_case))
       table).


End Vocabulary.

(** * Properties *)

Lemma fails_not_succeeds {S A} (m : M S A) (s : S) (e : exn) :
  fails_with m s e → ¬ succeeds m s.
Proof. intros Hf [a Ha]. unfold fails_with in Hf. congruence. Qed.

Lemma guarded_by_iff {S A} (m : M S A) (s : S) (P : Prop) (e : exn) :
  Decision P → guarded_by m s P e → (succeeds m s ↔ P).
Proof.
  intros HP [Hyes Hno]. split; [|done].
  intros Hs. destruct (decide P) as [|Hn]; [done|].
  destruct (fails_not_succeeds _ _ _ (Hno Hn) Hs).
Qed.

Section StateMachine.
Context `{Runtime}.

(** *** The three methods of the model, run from a record *)

Lemma approve_refund_run (agent : string) (now : Z) (rc : RefundCase) :
  RefundCase.approve_refund agent now rc =
  if decide (status rc ≠ PENDING)
  then (Raise (ValueError "Only pending refunds can be approved"), rc)
  else (Ok tt,
        mkRefundCase (id rc) (support_case_id rc) (customer_id rc)
          (order_id rc) APPROVED (eligibility_status rc)
          (total_refund_amount rc) (created_at rc) (Some now)
          (rejection_reason rc) (Some agent) (products rc)
          (history rc ++
             [mkHistoryEntry "refund_approved" now agent
                [("status", "Approved")]])).
Proof.
  unfold RefundCase.approve_refund, bind, get.
  destruct (decide (status rc ≠ PENDING)); reflexivity.
Qed.

Lemma reject_refund_run (agent reason : string) (now : Z) (rc : RefundCase) :
  RefundCase.reject_refund agent reason now rc =
  if decide (status rc ≠ PENDING)
  then (Raise (ValueError "Only pending refunds can be rejected"), rc)
  else (Ok tt,
        mkRefundCase (id rc) (support_case_id rc) (customer_id rc)
          (order_id rc) REJECTED (eligibility_status rc)
          (total_refund_amount rc) (created_at rc) (Some now)
          (Some reason) (Some agent) (products rc)
          (history rc ++
             [mkHistoryEntry "refund_rejected" now agent
                [("status", "Rejected"); ("reason", reason)]])).
Proof.
  unfold RefundCase.reject_refund, bind, get.
  destruct (decide (status rc ≠ PENDING)); reflexivity.
Qed.

Lemma complete_refund_run (now : Z) (rc : RefundCase) :
  RefundCase.complete_refund now rc =
  if decide (status rc ≠ APPROVED)
  then (Raise (ValueError "Only approved refunds can be completed"), rc)
  else (Ok tt,
        mkRefundCase (id rc) (support_case_id rc) (customer_id rc)
          (order_id rc) COMPLETED (eligibility_status rc)
          (total_refund_amount rc) (created_at rc) (processed_at rc)
          (rejection_reason rc) (agent_id rc) (products rc)
          (history rc ++
             [mkHistoryEntry "refund_completed" now "system"
                [("status", "Completed")]])).
Proof.
  unfold RefundCase.complete_refund, bind, get.
  destruct (decide (status rc ≠ APPROVED)); reflexivity.
Qed.

Lemma approve_refund_guard agent now :
  model_guard (RefundCase.approve_refund agent now) PENDING
    "Only pending refunds can be approved".
Proof.
  intros rc. rewrite approve_refund_run.
  destruct (decide (status rc ≠ PENDING)); split; intros; eauto; done.
Qed.

Lemma reject_refund_guard agent reason now :
  model_guard (RefundCase.reject_refund agent reason now) PENDING
    "Only pending refunds can be rejected".
Proof.
  intros rc. rewrite reject_refund_run.
  destruct (decide (status rc ≠ PENDING)); split; intros; eauto; done.
Qed.

Lemma complete_refund_guard now :
  model_guard (RefundCase.complete_refund now) APPROVED
    "Only approved refunds can be completed".
Proof.
  intros rc. rewrite complete_refund_run.
  destruct (decide (status rc ≠ APPROVED)); split; intros; eauto; done.
Qed.

Lemma approve_keeps_eligibility agent now :
  keeps_eligibility (RefundCase.approve_refund agent now).
Proof.
  intros rc. rewrite approve_refund_run. by destruct (decide _).
Qed.

Lemma reject_keeps_eligibility agent reason now :
  keeps_eligibility (RefundCase.reject_refund agent reason now).
Proof.
  intros rc. rewrite reject_refund_run. by destruct (decide _).
Qed.

Lemma complete_keeps_eligibility now :
  keeps_eligibility (RefundCase.complete_refund now).
Proof.
  intros rc. rewrite complete_refund_run. by destruct (decide _).
Qed.

Lemma status_value_inj (a b : RefundCaseStatus) :
  status_value a = status_value b → a = b.
Proof. by destruct a, b. Qed.

(** *** The guarded transition of the repository *)

Lemma transition_wrong_state (table : list RefundCase) refund_id rc
    (required : RefundCaseStatus) message method :
  BaseRepository.find_by_id table refund_id = Some rc →
  status rc ≠ required →
  RefundCaseRepository.transition refund_id (status_value required) message
    method table
  = (Raise (BusinessRuleException message None), table).
Proof.
  intros Hfind Hst. unfold RefundCaseRepository.transition, bind, get.
  rewrite Hfind. destruct (decide _) as [|Heq]; [done|].
  destruct Hst. apply status_value_inj. by apply dec_stable.
Qed.

Lemma transition_right_state (table : list RefundCase) refund_id rc
    (required : RefundCaseStatus) message method :
  BaseRepository.find_by_id table refund_id = Some rc →
  is_Some (eligibility_status rc) →
  model_guard method required message →
  keeps_eligibility method →
  status rc = required →
  ∃ rc', method rc = (Ok tt, rc')
    ∧ RefundCaseRepository.transition refund_id (status_value required)
        message method table
      = (Ok rc',
         List.map (λ row, if decide (id row = refund_id) then rc' else row)
           table).
Proof.
  intros Hfind Hel Hguard Hkeep Hst.
  destruct (Hguard rc) as [Hyes _]. destruct (Hyes Hst) as [rc' Hrun].
  exists rc'. split; [done|].
  unfold RefundCaseRepository.transition, bind, get. rewrite Hfind.
  destruct (decide _) as [Hne|_]; [by rewrite Hst in Hne|].
  rewrite Hrun. unfold lift, RefundCase.to_dict.
  specialize (Hkeep rc). rewrite Hrun in Hkeep. simpl in Hkeep.
  rewrite Hkeep. destruct Hel as [e ->]. reflexivity.
Qed.

Lemma transition_guarded (table : list RefundCase) refund_id rc
    (required : RefundCaseStatus) message method :
  BaseRepository.find_by_id table refund_id = Some rc →
  is_Some (eligibility_status rc) →
  model_guard method required message →
  keeps_eligibility method →
  guarded_by
    (RefundCaseRepository.transition refund_id (status_value required)
       message method)
    table (status rc = required) (BusinessRuleException message None).
Proof.
  intros Hfind Hel Hguard Hkeep. split.
  - intros Hst.
    destruct (transition_right_state _ _ _ _ _ _ Hfind Hel Hguard Hkeep Hst)
      as (rc' & _ & Hrun).
    exists rc'. by rewrite Hrun.
  - intros Hst. unfold fails_with.
    by rewrite (transition_wrong_state _ _ _ _ _ _ Hfind Hst).
Qed.

End StateMachine.

Section Transitions.
Context `{Runtime}.

(** C1.  For a stored refund case, approve and reject return exactly when
    its status is Pending and complete exactly when it is Approved; from any
    other status the repository raises a business-rule exception whose
    message names the required state ("Only pending refunds can be
    approved", "... rejected", "Only approved refunds can be completed").
    The methods of the model carry the same guard and raise a [ValueError]
    with the same message.  From Rejected and from Completed none of the
    three returns. *)
Theorem transitions_guarded_by_status (table : list RefundCase)
    (refund_id : string) (rc : RefundCase) (agent reason : string) (now : Z) :
  BaseRepository.find_by_id table refund_id = Some rc →
  is_Some (eligibility_status rc) →
  guarded_by (RefundCaseRepository.approve_refund refund_id agent now) table
    (status rc = PENDING)
    (BusinessRuleException "Only pending refunds can be approved" None)
  ∧ guarded_by (RefundCaseRepository.reject_refund refund_id agent reason now)
      table (status rc = PENDING)
      (BusinessRuleException "Only pending refunds can be rejected" None)
  ∧ guarded_by (RefundCaseRepository.complete_refund refund_id now) table
      (status rc = APPROVED)
      (BusinessRuleException "Only approved refunds can be completed" None)
  ∧ guarded_by (RefundCase.approve_refund agent now) rc (status rc = PENDING)
      (ValueError "Only pending refunds can be approved")
  ∧ guarded_by (RefundCase.reject_refund agent reason now) rc
      (status rc = PENDING)
      (ValueError "Only pending refunds can be rejected")
  ∧ guarded_by (RefundCase.complete_refund now) rc (status rc = APPROVED)
      (ValueError "Only approved refunds can be completed")
  ∧ (status rc = REJECTED ∨ status rc = COMPLETED →
     ¬ succeeds (RefundCaseRepository.approve_refund refund_id agent now) table
     ∧ ¬ succeeds
           (RefundCaseRepository.reject_refund refund_id agent reason now) table
     ∧ ¬ succeeds (RefundCaseRepository.complete_refund refund_id now) table).
Proof.
  intros Hfind Hel.
  pose proof (transition_guarded table refund_id rc PENDING _ _ Hfind Hel
                (approve_refund_guard agent now)
                (approve_keeps_eligibility agent now)) as Ha.
  pose proof (transition_guarded table refund_id rc PENDING _ _ Hfind Hel
                (reject_refund_guard agent reason now)
                (reject_keeps_eligibility agent reason now)) as Hr.
  pose proof (transition_guarded table refund_id rc APPROVED _ _ Hfind Hel
                (complete_refund_guard now)
                (complete_keeps_eligibility now)) as Hc.
  refine (conj Ha (conj Hr (conj Hc (conj _ (conj _ (conj _ _)))))).
  - destruct (approve_refund_guard agent now rc) as [Hy Hn].
    split; [intros Hs; destruct (Hy Hs) as [rc' Hrun]; exists tt; by rewrite Hrun|].
    intros Hs. unfold fails_with. by rewrite (Hn Hs).
  - destruct (reject_refund_guard agent reason now rc) as [Hy Hn].
    split; [intros Hs; destruct (Hy Hs) as [rc' Hrun]; exists tt; by rewrite Hrun|].
    intros Hs. unfold fails_with. by rewrite (Hn Hs).
  - destruct (complete_refund_guard now rc) as [Hy Hn].
    split; [intros Hs; destruct (Hy Hs) as [rc' Hrun]; exists tt; by rewrite Hrun|].
    intros Hs. unfold fails_with. by rewrite (Hn Hs).
  - intros Hterminal. split_and!.
    + eapply fails_not_succeeds, Ha. destruct Hterminal; congruence.
    + eapply fails_not_succeeds, Hr. destruct Hterminal; congruence.
    + eapply fails_not_succeeds, Hc. destruct Hterminal; congruence.
Qed.

(** C2.  A transition attempted from a wrong status changes nothing: the
    repository leaves the table as it was, and the method of the model
    leaves the record as it was, so that history (and its length), status,
    processed_at, agent_id and rejection_reason keep their values. *)
Theorem failed_transition_changes_nothing (table : list RefundCase)
    (refund_id : string) (rc : RefundCase) (agent reason : string) (now : Z) :
  BaseRepository.find_by_id table refund_id = Some rc →
  (status rc ≠ PENDING →
     (RefundCaseRepository.approve_refund refund_id agent now table).2 = table
     ∧ (RefundCaseRepository.reject_refund refund_id agent reason now table).2
       = table
     ∧ (RefundCase.approve_refund agent now rc).2 = rc
     ∧ (RefundCase.reject_refund agent reason now rc).2 = rc)
  ∧ (status rc ≠ APPROVED →
     (RefundCaseRepository.complete_refund refund_id now table).2 = table
     ∧ (RefundCase.complete_refund now rc).2 = rc).
Proof.
  intros Hfind. split; intros Hst.
  - unfold RefundCaseRepository.approve_refund,
      RefundCaseRepository.reject_refund.
    rewrite (transition_wrong_state table refund_id rc PENDING _ _ Hfind Hst).
    rewrite (transition_wrong_state table refund_id rc PENDING _ _ Hfind Hst).
    destruct (approve_refund_guard agent now rc) as [_ ->]; [|done].
    destruct (reject_refund_guard agent reason now rc) as [_ ->]; done.
  - unfold RefundCaseRepository.complete_refund.
    rewrite (transition_wrong_state table refund_id rc APPROVED _ _ Hfind Hst).
    destruct (complete_refund_guard now rc) as [_ ->]; done.
Qed.

End Transitions.

Section Eligibility.
Context `{Runtime}.

(** *** The loop of [calculate_eligibility] *)

Lemma calculate_eligibility_loop_eq today dd ps el inel :
  RefundCase.calculate_eligibility_loop today dd ps el inel =
  match first_malformed today dd ps with
  | Some s => Raise (RefundCase.invalid_isoformat s)
  | None =>
    let es := omap (λ p, line_entry today dd (product_id p)) ps in
    Ok (el ++ List.filter is_eligible es, inel ++ List.filter is_ineligible es)
  end.
Proof.
  revert el inel. induction ps as [|p ps IH]; intros el inel; simpl.
  - by rewrite !app_nil_r.
  - unfold line_entry, read_date.
    destruct (truthy (dd !! product_id p)) as [s|]; simpl.
    + destruct (fromisoformat s) as [d|]; simpl; [|done].
      destruct (decide (today - d ≤ 14)); rewrite IH;
        destruct (first_malformed today dd ps); simpl; try done;
        by rewrite <- !app_assoc.
    + rewrite IH. destruct (first_malformed today dd ps); simpl; [done|].
      by rewrite <- !app_assoc.
Qed.

Lemma calculate_eligibility_run dd today (rc : RefundCase) :
  RefundCase.calculate_eligibility dd today rc =
  match RefundCase.calculate_eligibility_loop today dd (products rc) [] [] with
  | Raise e => (Raise e, rc)
  | Ok (el, inel) =>
    (Ok (mkEligibilityResult
           (eligibility_value (RefundCase.overall_status el inel)) el inel
           (length el) (length inel)),
     RefundCase.set_eligibility_status
       (Some (RefundCase.overall_status el inel)) rc)
  end.
Proof.
  unfold RefundCase.calculate_eligibility, bind, get, lift.
  destruct (RefundCase.calculate_eligibility_loop _ _ _ _ _) as [[el inel]|e];
    reflexivity.
Qed.

Lemma first_malformed_None today dd ps :
  first_malformed today dd ps = None ↔
  ∀ p, p ∈ ps → ∀ s, read_date today dd (product_id p) ≠ Malformed s.
Proof.
  induction ps as [|p ps IH]; simpl.
  - split; [|done]. intros _ p Hp. by apply elem_of_nil in Hp.
  - split.
    + intros Hnone q Hq s. apply elem_of_cons in Hq as [->|Hq].
      * destruct (read_date today dd (product_id p)); congruence.
      * destruct (read_date today dd (product_id p)); try done;
          by apply IH.
    + intros Hall.
      pose proof (Hall p (list_elem_of_here _ _)) as Hp.
      destruct (read_date today dd (product_id p)) as [| s |s d];
        [| by destruct (Hp s) |];
        apply IH; intros q Hq; apply Hall; by apply list_elem_of_further.
Qed.


(** Every entry lands in the bucket that its flag names. *)
Lemma elem_of_eligible_filter (e : EligibilityEntry) es :
  e ∈ List.filter is_eligible es ↔ e ∈ es ∧ e_eligible e = true.
Proof.
  rewrite !list_elem_of_In, filter_In. unfold is_eligible. tauto.
Qed.

Lemma elem_of_ineligible_filter (e : EligibilityEntry) es :
  e ∈ List.filter is_ineligible es ↔ e ∈ es ∧ e_eligible e = false.
Proof.
  rewrite !list_elem_of_In, filter_In. unfold is_ineligible.
  destruct (e_eligible e); simpl; intuition congruence.
Qed.

Lemma filter_lengths (es : list EligibilityEntry) :
  (length (List.filter is_eligible es) + length (List.filter is_ineligible es)
   = length es)%nat.
Proof.
  induction es as [|e es IH]; simpl; [done|].
  unfold is_eligible, is_ineligible in *.
  destruct (e_eligible e); simpl; lia.
Qed.

(** *** The loop and the totals of [validate_refund_eligibility] *)

Lemma eligibility_loop_eq today scp dd ids el inel :
  RefundCaseService.eligibility_loop today scp dd ids el inel =
  let es := List.map (check_entry today scp dd) ids in
  (el ++ List.filter is_eligible es, inel ++ List.filter is_ineligible es).
Proof.
  revert el inel. induction ids as [|pid ids IH]; intros el inel; simpl.
  - by rewrite !app_nil_r.
  - unfold check_entry, read_date.
    destruct (scp !! pid) as [product|]; simpl.
    + destruct (truthy (dd !! pid)) as [s|]; simpl.
      * destruct (fromisoformat s) as [d|]; simpl.
        -- destruct (decide (today - d ≤ 14)); rewrite IH; simpl;
             by rewrite <- !app_assoc.
        -- rewrite IH. simpl. by rewrite <- !app_assoc.
      * rewrite IH. simpl. by rewrite <- !app_assoc.
    + rewrite IH. simpl. by rewrite <- !app_assoc.
Qed.

Lemma check_entry_id today scp dd pid :
  e_product_id (check_entry today scp dd pid) = pid.
Proof.
  unfold check_entry. destruct (scp !! pid); [|done].
  destruct (read_date today dd pid); [done|done|].
  by destruct (decide _).
Qed.

(** An entry of the standalone check has both keys or none of the two. *)
Lemma check_entry_priced_or_bare today scp dd pid :
  priced (check_entry today scp dd pid)
  ∨ e_price (check_entry today scp dd pid) = None.
Proof.
  unfold check_entry, priced. destruct (scp !! pid); [|by right].
  destruct (read_date today dd pid); [by right|by right|].
  destruct (decide _); left; split; by eexists.
Qed.

Lemma check_entry_eligible_priced today scp dd pid :
  e_eligible (check_entry today scp dd pid) = true →
  priced (check_entry today scp dd pid).
Proof.
  unfold check_entry, priced. destruct (scp !! pid); [|done].
  destruct (read_date today dd pid); [done|done|].
  destruct (decide _); [|done]. intros _. split; by eexists.
Qed.

Lemma sum_amounts_priced acc (es : list EligibilityEntry) :
  Forall priced es → ∃ total, RefundCaseService.sum_amounts acc es = Ok total.
Proof.
  revert acc. induction es as [|e es IH]; intros acc Hall; simpl; [by eexists|].
  apply Forall_cons in Hall as [[[p Hp] [q Hq]] Hall].
  rewrite Hp, Hq. by apply IH.
Qed.

Lemma sum_amounts_bare acc (es : list EligibilityEntry) :
  Forall (λ e, priced e ∨ e_price e = None) es →
  ¬ Forall priced es →
  RefundCaseService.sum_amounts acc es = Raise (KeyError "price").
Proof.
  revert acc. induction es as [|e es IH]; intros acc Hall Hnot; simpl.
  - destruct Hnot. constructor.
  - apply Forall_cons in Hall as [He Hall].
    destruct He as [[[p Hp] [q Hq]]|Hbare]; [|by rewrite Hbare].
    rewrite Hp, Hq. apply IH; [done|].
    intros Hes. apply Hnot. constructor; [|done]. split; by eexists.
Qed.

(** The standalone check, once the requester is known to own the support
    case: it returns the report of its two buckets when every ineligible
    entry is priced, and raises [KeyError] on ["price"] otherwise. *)
Lemma validate_refund_eligibility_run support sc c cust ids dd today :
  support !! sc = Some c →
  sc_customer_id c = cust →
  let el := (check_buckets today c dd ids).1 in
  let inel := (check_buckets today c dd ids).2 in
  (Forall priced inel →
   ∃ te ti,
     RefundCaseService.validate_refund_eligibility support sc cust ids dd today
     = Ok (mkEligibilityReport (RefundCaseService.overall_status el inel)
             el inel (bool_decide (length inel = 0%nat)) te ti))
  ∧ (¬ Forall priced inel →
     RefundCaseService.validate_refund_eligibility support sc cust ids dd today
     = Raise (KeyError "price")).
Proof.
  intros Hsc Hown el inel.
  assert (Forall priced el) as Hel.
  { subst el. unfold check_buckets. rewrite eligibility_loop_eq. simpl.
    apply Forall_forall. intros e He.
    apply elem_of_eligible_filter in He as [He Hflag].
    apply list_elem_of_In, in_map_iff in He as (pid & <- & _).
    by apply check_entry_eligible_priced. }
  assert (Forall (λ e, priced e ∨ e_price e = None) inel) as Hinel.
  { subst inel. unfold check_buckets. rewrite eligibility_loop_eq. simpl.
    apply Forall_forall. intros e He.
    apply elem_of_ineligible_filter in He as [He _].
    apply list_elem_of_In, in_map_iff in He as (pid & <- & _).
    apply check_entry_priced_or_bare. }
  unfold RefundCaseService.validate_refund_eligibility. rewrite Hsc.
  destruct (decide (sc_customer_id c ≠ cust)) as [|_]; [done|].
  fold (check_buckets today c dd ids). fold el. fold inel.
  destruct (sum_amounts_priced (num_of_int 0) el Hel) as [te Hte].
  rewrite Hte. simpl. split.
  - intros Hp. destruct (sum_amounts_priced (num_of_int 0) inel Hp) as [ti Hti].
    exists te, ti. by rewrite Hti.
  - intros Hnp. by rewrite (sum_amounts_bare _ _ Hinel Hnp).
Qed.

End Eligibility.

Section Buckets.
Context `{Runtime}.

Lemma read_date_delivered today (dd : gmap string string) pid s d :
  dd !! pid = Some s → s ≠ "" → fromisoformat s = Some d →
  read_date today dd pid = Delivered s (today - d).
Proof.
  intros Hs Hne Hd. unfold read_date, truthy. rewrite Hs.
  destruct (decide (s = "")); [done|]. by rewrite Hd.
Qed.

Lemma read_date_malformed today (dd : gmap string string) pid s :
  dd !! pid = Some s → s ≠ "" → fromisoformat s = None →
  read_date today dd pid = Malformed s.
Proof.
  intros Hs Hne Hd. unfold read_date, truthy. rewrite Hs.
  destruct (decide (s = "")); [done|]. by rewrite Hd.
Qed.

Lemma read_date_missing today (dd : gmap string string) pid :
  truthy (dd !! pid) = None → read_date today dd pid = NoDate.
Proof. intros Hs. unfold read_date. by rewrite Hs. Qed.

Lemma line_entry_id today dd pid e :
  line_entry today dd pid = Some e → e_product_id e = pid.
Proof.
  unfold line_entry. destruct (read_date today dd pid); [| done |].
  - by intros [= <-].
  - destruct (decide _); by intros [= <-].
Qed.

(** The entry of a product id decides which bucket lists the id, and with
    which reason. *)
Lemma bucket_of_entry (es : list EligibilityEntry) pid e0 :
  e0 ∈ es → e_product_id e0 = pid →
  (∀ e, e ∈ es → e_product_id e = pid → e = e0) →
  (listed_in (List.filter is_eligible es) pid ↔ e_eligible e0 = true)
  ∧ (listed_in (List.filter is_ineligible es) pid ↔ e_eligible e0 = false)
  ∧ (e_eligible e0 = true →
     judged (List.filter is_eligible es) pid true (e_reason e0))
  ∧ (e_eligible e0 = false →
     judged (List.filter is_ineligible es) pid false (e_reason e0)).
Proof.
  intros Hin Hid Huniq. split_and!.
  - split.
    + intros (e & He & Heid). apply elem_of_eligible_filter in He as [He Hf].
      by rewrite <- (Huniq e He Heid).
    + intros Hf. exists e0. split; [|done]. by apply elem_of_eligible_filter.
  - split.
    + intros (e & He & Heid). apply elem_of_ineligible_filter in He as [He Hf].
      by rewrite <- (Huniq e He Heid).
    + intros Hf. exists e0. split; [|done]. by apply elem_of_ineligible_filter.
  - intros Hf. exists e0. split_and!; try done.
    by apply elem_of_eligible_filter.
  - intros Hf. exists e0. split_and!; try done.
    by apply elem_of_ineligible_filter.
Qed.

(** What a returned [calculate_eligibility] has computed. *)
Lemma calculate_eligibility_returns dd today (rc rc' : RefundCase) r :
  RefundCase.calculate_eligibility dd today rc = (Ok r, rc') →
  let es := omap (λ p, line_entry today dd (product_id p)) (products rc) in
  let el := List.filter is_eligible es in
  let inel := List.filter is_ineligible es in
  first_malformed today dd (products rc) = None
  ∧ r = mkEligibilityResult
          (eligibility_value (RefundCase.overall_status el inel)) el inel
          (length el) (length inel)
  ∧ rc' = RefundCase.set_eligibility_status
            (Some (RefundCase.overall_status el inel)) rc.
Proof.
  rewrite calculate_eligibility_run, calculate_eligibility_loop_eq.
  destruct (first_malformed today dd (products rc)); simpl; [done|].
  by intros [= <- <-].
Qed.

Lemma calculate_entry_mem today dd (ps : list RefundProduct) p e0 :
  p ∈ ps → line_entry today dd (product_id p) = Some e0 →
  let es := omap (λ p, line_entry today dd (product_id p)) ps in
  e0 ∈ es ∧ (∀ e, e ∈ es → e_product_id e = product_id p → e = e0).
Proof.
  intros Hp He0 es. split.
  - apply list_elem_of_omap. by exists p.
  - intros e He Hid. apply list_elem_of_omap in He as (q & Hq & Hqe).
    rewrite (line_entry_id _ _ _ _ Hqe) in Hid.
    rewrite Hid in Hqe. congruence.
Qed.

Lemma check_entry_mem today scp dd (ids : list string) pid :
  pid ∈ ids →
  let es := List.map (check_entry today scp dd) ids in
  check_entry today scp dd pid ∈ es
  ∧ (∀ e, e ∈ es → e_product_id e = pid → e = check_entry today scp dd pid).
Proof.
  intros Hpid es. split.
  - apply list_elem_of_In, in_map. by apply list_elem_of_In.
  - intros e He Hid. apply list_elem_of_In, in_map_iff in He as (q & <- & _).
    rewrite check_entry_id in Hid. by subst q.
Qed.

End Buckets.

Section EligibilityEngine.
Context `{Runtime}.

Lemma window_rule_of_entry (es : list EligibilityEntry) pid e0 days :
  e0 ∈ es → e_product_id e0 = pid →
  (∀ e, e ∈ es → e_product_id e = pid → e = e0) →
  e_eligible e0 = bool_decide (days ≤ 14) →
  (days ≤ 14 → e_reason e0 = "Within 14-day refund window") →
  (14 < days → e_reason e0 = RefundCase.exceeds_reason days) →
  window_rule (List.filter is_eligible es) (List.filter is_ineligible es)
    pid days.
Proof.
  intros Hin Hid Huniq Hflag Hyes Hno.
  destruct (bucket_of_entry es pid e0 Hin Hid Huniq) as (Hel & Hinel & Hj & Hk).
  unfold window_rule. rewrite Hel, Hinel, Hflag. split_and!.
  - by rewrite bool_decide_eq_true.
  - rewrite bool_decide_eq_false. lia.
  - intros Hd. rewrite <- (Hyes Hd). apply Hj. rewrite Hflag.
    by apply bool_decide_eq_true.
  - intros Hd. rewrite <- (Hno Hd). apply Hk. rewrite Hflag.
    apply bool_decide_eq_false. lia.
Qed.

Lemma validate_refund_eligibility_ok support sc c cust ids dd today report :
  support !! sc = Some c →
  RefundCaseService.validate_refund_eligibility support sc cust ids dd today
  = Ok report →
  sc_customer_id c = cust
  ∧ v_eligible_products report = (check_buckets today c dd ids).1
  ∧ v_ineligible_products report = (check_buckets today c dd ids).2
  ∧ v_eligibility_status report
    = RefundCaseService.overall_status (check_buckets today c dd ids).1
        (check_buckets today c dd ids).2.
Proof.
  intros Hsc Hok.
  assert (sc_customer_id c = cust) as Hown.
  { revert Hok. unfold RefundCaseService.validate_refund_eligibility.
    rewrite Hsc. destruct (decide (sc_customer_id c ≠ cust)); [done|].
    intros _. by apply dec_stable. }
  split; [done|].
  destruct (validate_refund_eligibility_run support sc c cust ids dd today
              Hsc Hown) as [Hyes Hno].
  destruct (decide (Forall priced (check_buckets today c dd ids).2)) as [Hp|Hp].
  - destruct (Hyes Hp) as (te & ti & Hrun). rewrite Hrun in Hok.
    by injection Hok as <-.
  - rewrite (Hno Hp) in Hok. done.
Qed.

(** The 14-day rule.  A product line with a supplied, well-formed delivery
    date is listed as eligible exactly when the whole-day difference between
    the evaluation date and the delivery date is at most 14, and as
    ineligible otherwise, with the overage in its reason (15 days: "by 1
    days").  This holds for the report that the creation-time calculation
    returns and for the report that the standalone check returns. *)
Lemma fourteen_day_rule (today : Z) (dd : gmap string string) :
  (∀ (rc rc' : RefundCase) r p s d,
     RefundCase.calculate_eligibility dd today rc = (Ok r, rc') →
     p ∈ products rc →
     dd !! product_id p = Some s → s ≠ "" → fromisoformat s = Some d →
     window_rule (r_eligible_products r) (r_ineligible_products r)
       (product_id p) (today - d))
  ∧ (∀ support sc (c : SupportCase) cust ids report pid s d,
     support !! sc = Some c →
     RefundCaseService.validate_refund_eligibility support sc cust ids dd
       today = Ok report →
     pid ∈ ids →
     is_Some (RefundCaseService.support_case_products c !! pid) →
     dd !! pid = Some s → s ≠ "" → fromisoformat s = Some d →
     window_rule (v_eligible_products report) (v_ineligible_products report)
       pid (today - d))
  ∧ RefundCase.exceeds_reason 15 = "Exceeds 14-day refund window by 1 days".
Proof.
  split_and!.
  - intros rc rc' r p s d Hrun Hp Hs Hne Hd.
    destruct (calculate_eligibility_returns _ _ _ _ _ Hrun) as (_ & -> & _).
    simpl.
    pose proof (read_date_delivered today dd _ s d Hs Hne Hd) as Hread.
    set (e0 := if decide (today - d ≤ 14)
               then RefundCase.within_window_entry (product_id p) s (today - d)
               else RefundCase.exceeds_window_entry (product_id p) s
                      (today - d)).
    assert (line_entry today dd (product_id p) = Some e0) as He0
      by (unfold line_entry; by rewrite Hread).
    destruct (calculate_entry_mem today dd _ p e0 Hp He0) as [Hin Huniq].
    apply (window_rule_of_entry _ _ e0); try done; subst e0.
    + by destruct (decide _).
    + destruct (decide (today - d ≤ 14)) as [Hle|Hgt]; simpl.
      * by rewrite bool_decide_eq_true_2.
      * by rewrite bool_decide_eq_false_2.
    + intros Hle. by destruct (decide _).
    + intros Hgt. destruct (decide _); [lia|done].
  - intros support sc c cust ids report pid s d Hsc Hok Hpid [product Hfound]
      Hs Hne Hd.
    destruct (validate_refund_eligibility_ok _ _ _ _ _ _ _ _ Hsc Hok)
      as (_ & -> & -> & _).
    unfold check_buckets. rewrite eligibility_loop_eq. simpl.
    set (scp := RefundCaseService.support_case_products c) in *.
    destruct (check_entry_mem today scp dd ids pid Hpid) as [Hin Huniq].
    pose proof (check_entry_id today scp dd pid) as Hid.
    pose proof (read_date_delivered today dd _ s d Hs Hne Hd) as Hread.
    apply (window_rule_of_entry _ _ _ _ Hin Hid Huniq);
      unfold check_entry; rewrite Hfound, Hread.
    + destruct (decide (today - d ≤ 14)) as [Hle|Hgt]; simpl.
      * by rewrite bool_decide_eq_true_2.
      * by rewrite bool_decide_eq_false_2.
    + intros Hle. by destruct (decide _).
    + intros Hgt. destruct (decide _); [lia|done].
  - by vm_compute.
Qed.

End EligibilityEngine.

Section Verdict.
Context `{Runtime}.

(** The aggregate verdict, by the number [k] of eligible entries among
    [n] entries. *)
Lemma overall_status_by_count (el inel : list EligibilityEntry) :
  let k := length el in
  let n := (length el + length inel)%nat in
  n ≠ 0%nat →
  (k = n → RefundCase.overall_status el inel = ELIGIBLE)
  ∧ (k = 0%nat → RefundCase.overall_status el inel = INELIGIBLE)
  ∧ ((0 < k < n)%nat → RefundCase.overall_status el inel = PARTIALLY_ELIGIBLE).
Proof.
  intros k n Hn. unfold RefundCase.overall_status. subst k n.
  repeat case_decide; split_and!; intros; try done; lia.
Qed.

Lemma service_overall_status (el inel : list EligibilityEntry) :
  RefundCaseService.overall_status el inel
  = eligibility_value (RefundCase.overall_status el inel).
Proof.
  unfold RefundCaseService.overall_status, RefundCase.overall_status.
  by repeat case_decide.
Qed.

(** Where every supplied date is well formed, the creation-time calculation
    returns, its two counts add up to the number of lines, and its verdict
    follows the count of eligible lines. *)
Lemma calculate_eligibility_verdict dd today (rc : RefundCase) :
  first_malformed today dd (products rc) = None →
  ∃ r,
    RefundCase.calculate_eligibility dd today rc
    = (Ok r,
       RefundCase.set_eligibility_status
         (Some (RefundCase.overall_status (r_eligible_products r)
                  (r_ineligible_products r))) rc)
    ∧ (r_eligible_count r + r_ineligible_count r = length (products rc))%nat
    ∧ r_eligible_count r = length (r_eligible_products r)
    ∧ r_ineligible_count r = length (r_ineligible_products r)
    ∧ r_eligibility_status r
      = eligibility_value (RefundCase.overall_status (r_eligible_products r)
                             (r_ineligible_products r)).
Proof.
  intros Hwf. rewrite calculate_eligibility_run, calculate_eligibility_loop_eq.
  rewrite Hwf. simpl.
  set (es := omap (λ p, line_entry today dd (product_id p)) (products rc)).
  exists (mkEligibilityResult
            (eligibility_value
               (RefundCase.overall_status (List.filter is_eligible es)
                  (List.filter is_ineligible es)))
            (List.filter is_eligible es) (List.filter is_ineligible es)
            (length (List.filter is_eligible es))
            (length (List.filter is_ineligible es))).
  simpl. split_and!; try done.
  rewrite filter_lengths. subst es. rewrite first_malformed_None in Hwf.
  induction (products rc) as [|p ps IH]; simpl; [done|].
  assert (is_Some (line_entry today dd (product_id p))) as [e ->].
  { unfold line_entry.
    pose proof (Hwf p (list_elem_of_here _ _)) as Hp.
    destruct (read_date today dd (product_id p)) as [| s |s n];
      [by eexists| by destruct (Hp s) |by eexists]. }
  simpl. f_equal. apply IH. intros q Hq. apply Hwf.
  by apply list_elem_of_further.
Qed.

(** The number of eligible entries is the number of lines whose delivery
    date is supplied, well formed and at most 14 days back. *)
Lemma eligible_count_in_window today dd (ps : list RefundProduct) :
  length (List.filter is_eligible
            (omap (λ p, line_entry today dd (product_id p)) ps))
  = length (List.filter (λ p, in_window today dd (product_id p)) ps).
Proof.
  induction ps as [|p ps IH]; simpl; [done|].
  unfold line_entry, in_window.
  destruct (read_date today dd (product_id p)) as [| s |s days]; simpl;
    [done|done|].
  destruct (decide (days ≤ 14)) as [Hle|Hgt].
  - rewrite (bool_decide_eq_true_2 _ Hle). simpl. f_equal. apply IH.
  - rewrite (bool_decide_eq_false_2 _ Hgt). simpl. apply IH.
Qed.

Lemma check_count_in_window today (c : SupportCase) dd (ids : list string) :
  length (check_buckets today c dd ids).1
  = length (List.filter
              (λ pid,
                 bool_decide
                   (is_Some (RefundCaseService.support_case_products c !! pid))
                 && in_window today dd pid) ids)
  ∧ (length (check_buckets today c dd ids).1
     + length (check_buckets today c dd ids).2 = length ids)%nat.
Proof.
  unfold check_buckets. rewrite eligibility_loop_eq. simpl.
  split; [|by rewrite filter_lengths, length_map].
  induction ids as [|pid ids IH]; simpl; [done|].
  unfold check_entry, in_window.
  destruct (RefundCaseService.support_case_products c !! pid) as [product|];
    simpl; [|done].
  destruct (read_date today dd pid) as [| s |s days]; simpl; [done|done|].
  destruct (decide (days ≤ 14)) as [Hle|Hgt].
  - rewrite (bool_decide_eq_true_2 _ Hle). simpl. f_equal. apply IH.
  - rewrite (bool_decide_eq_false_2 _ Hgt). simpl. apply IH.
Qed.

(** C3, on the code: eligibility computation raises on a malformed delivery
    date.  With a date string that [datetime.fromisoformat] rejects, the
    creation-time calculation raises the [ValueError] of the parser and
    leaves the record as it was; the standalone check classifies a product
    of the support case as ineligible with reason "Invalid delivery date
    format" and then raises [KeyError] on ["price"] while it sums the
    amounts of the ineligible bucket. *)
Theorem malformed_date_raises (today : Z) (dd : gmap string string)
    (pid s : string) :
  dd !! pid = Some s → s ≠ "" → fromisoformat s = None →
  (∀ (rc : RefundCase) p, p ∈ products rc → product_id p = pid →
     ∃ s', fails_with (RefundCase.calculate_eligibility dd today) rc
             (RefundCase.invalid_isoformat s')
           ∧ (RefundCase.calculate_eligibility dd today rc).2 = rc)
  ∧ (∀ support sc (c : SupportCase) cust ids,
     support !! sc = Some c → sc_customer_id c = cust → pid ∈ ids →
     (is_Some (RefundCaseService.support_case_products c !! pid) →
      judged (check_buckets today c dd ids).2 pid false
        "Invalid delivery date format")
     ∧ RefundCaseService.validate_refund_eligibility support sc cust ids dd
         today = Raise (KeyError "price")).
Proof.
  intros Hs Hne Hd.
  pose proof (read_date_malformed today dd pid s Hs Hne Hd) as Hread. split.
  - intros rc p Hp Hpid. subst pid.
    destruct (first_malformed today dd (products rc)) as [s'|] eqn:Hfirst.
    + exists s'. unfold fails_with.
      rewrite calculate_eligibility_run, calculate_eligibility_loop_eq, Hfirst.
      done.
    + rewrite first_malformed_None in Hfirst. by destruct (Hfirst p Hp s).
  - intros support sc c cust ids Hsc Hown Hpid.
    set (scp := RefundCaseService.support_case_products c).
    destruct (check_entry_mem today scp dd ids pid Hpid) as [Hin Huniq].
    pose proof (check_entry_id today scp dd pid) as Hid.
    assert (e_price (check_entry today scp dd pid) = None
            ∧ e_eligible (check_entry today scp dd pid) = false) as [Hbare Hflag].
    { unfold check_entry. rewrite Hread. by destruct (scp !! pid). }
    split.
    + intros [product Hfound]. unfold check_buckets.
      rewrite eligibility_loop_eq. simpl. fold scp.
      destruct (bucket_of_entry _ pid _ Hin Hid Huniq) as (_ & _ & _ & Hj).
      assert (e_reason (check_entry today scp dd pid)
              = "Invalid delivery date format") as <-
        by (unfold check_entry; by rewrite Hfound, Hread).
      by apply Hj.
    + apply (validate_refund_eligibility_run support sc c cust ids dd today
               Hsc Hown).
      intros Hall. unfold check_buckets in Hall.
      rewrite eligibility_loop_eq in Hall. simpl in Hall. fold scp in Hall.
      rewrite Forall_forall in Hall.
      destruct (Hall (check_entry today scp dd pid)) as [[x Hx] _].
      * by apply elem_of_ineligible_filter.
      * congruence.
Qed.

(** C6, on the code: the standalone check loses its verdict.  For a single
    requested product id that is not on the support case (N = 1, k = 0) the
    loop fills the ineligible bucket with one entry and the verdict
    expression evaluates to "Ineligible", but the call raises [KeyError] on
    ["price"] before any report is returned. *)
Theorem unknown_product_verdict_lost support sc (c : SupportCase) cust pid
    (dd : gmap string string) (today : Z) :
  support !! sc = Some c → sc_customer_id c = cust →
  RefundCaseService.support_case_products c !! pid = None →
  check_buckets today c dd [pid]
  = ([], [RefundCaseService.not_found_entry pid])
  ∧ RefundCaseService.overall_status (check_buckets today c dd [pid]).1
      (check_buckets today c dd [pid]).2 = "Ineligible"
  ∧ RefundCaseService.validate_refund_eligibility support sc cust [pid] dd
      today = Raise (KeyError "price").
Proof.
  intros Hsc Hown Hnone.
  assert (check_buckets today c dd [pid]
          = ([], [RefundCaseService.not_found_entry pid])) as Hb.
  { unfold check_buckets. simpl. by rewrite Hnone. }
  split_and!; [done| by rewrite Hb |].
  apply (validate_refund_eligibility_run support sc c cust [pid] dd today
           Hsc Hown).
  rewrite Hb. simpl. intros Hall. apply Forall_cons in Hall as [[[x Hx] _] _].
  done.
Qed.

(** C5, on the code: the standalone check raises on a product without
    delivery date.  For a product id that has no (or an empty) delivery date
    in the mapping, the creation-time calculation, which returns whenever no
    supplied date is malformed, lists the line as ineligible with reason
    "No delivery date available".  The standalone check, called by the owner
    of the support case with such an id among the requested ones, builds for
    a product of the support case an ineligible entry whose reason is
    "No delivery date available for product", not the reason of the
    creation-time calculation, and then raises [KeyError] on ["price"] while
    it sums the amounts of the ineligible bucket: no report is returned. *)
Theorem undated_product_check_raises (today : Z) (dd : gmap string string)
    (pid : string) :
  truthy (dd !! pid) = None →
  (∀ (rc : RefundCase) p, p ∈ products rc → product_id p = pid →
     first_malformed today dd (products rc) = None →
     ∃ r, (RefundCase.calculate_eligibility dd today rc).1 = Ok r
          ∧ judged (r_ineligible_products r) pid false
              "No delivery date available"
          ∧ ¬ listed_in (r_eligible_products r) pid)
  ∧ (∀ support sc (c : SupportCase) cust ids,
     support !! sc = Some c → sc_customer_id c = cust → pid ∈ ids →
     (is_Some (RefundCaseService.support_case_products c !! pid) →
      judged (check_buckets today c dd ids).2 pid false
        "No delivery date available for product"
      ∧ ¬ judged (check_buckets today c dd ids).2 pid false
            "No delivery date available")
     ∧ RefundCaseService.validate_refund_eligibility support sc cust ids dd
         today = Raise (KeyError "price")).
Proof.
  intros Hnone.
  pose proof (read_date_missing today dd pid Hnone) as Hread. split.
  - intros rc p Hp Hpid Hwf. subst pid.
    destruct (calculate_eligibility_verdict dd today rc Hwf) as (r & Hrun & _).
    exists r. split; [by rewrite Hrun|].
    destruct (calculate_eligibility_returns _ _ _ _ _ Hrun) as (_ & -> & _).
    simpl.
    assert (line_entry today dd (product_id p)
            = Some (RefundCase.no_delivery_date_entry (product_id p))) as He0
      by (unfold line_entry; by rewrite Hread).
    destruct (calculate_entry_mem today dd _ p _ Hp He0) as [Hin Huniq].
    destruct (bucket_of_entry _ (product_id p) _ Hin eq_refl Huniq)
      as (Hel & _ & _ & Hj).
    split; [by apply Hj|]. rewrite Hel. done.
  - intros support sc c cust ids Hsc Hown Hpid.
    set (scp := RefundCaseService.support_case_products c).
    destruct (check_entry_mem today scp dd ids pid Hpid) as [Hin Huniq].
    pose proof (check_entry_id today scp dd pid) as Hid.
    assert (e_price (check_entry today scp dd pid) = None
            ∧ e_eligible (check_entry today scp dd pid) = false) as [Hbare Hflag].
    { unfold check_entry. rewrite Hread. by destruct (scp !! pid). }
    split.
    + intros [product Hfound]. unfold check_buckets.
      rewrite eligibility_loop_eq. simpl. fold scp.
      destruct (bucket_of_entry _ pid _ Hin Hid Huniq) as (_ & _ & _ & Hj).
      assert (check_entry today scp dd pid
              = RefundCaseService.no_delivery_date_entry pid) as Hentry
        by (unfold check_entry; by rewrite Hfound, Hread).
      split.
      * rewrite Hentry in Hj. by apply Hj.
      * intros (e & He & Heid & _ & Hreason).
        apply elem_of_ineligible_filter in He as [He _].
        rewrite (Huniq e He Heid), Hentry in Hreason. discriminate Hreason.
    + apply (validate_refund_eligibility_run support sc c cust ids dd today
               Hsc Hown).
      intros Hall. unfold check_buckets in Hall.
      rewrite eligibility_loop_eq in Hall. simpl in Hall. fold scp in Hall.
      rewrite Forall_forall in Hall.
      destruct (Hall (check_entry today scp dd pid)) as [[x Hx] _].
      * by apply elem_of_ineligible_filter.
      * congruence.
Qed.

(** C10.  Called by the owner of an existing support case with an empty
    list of product ids, the standalone check returns the report with two
    empty buckets, status "Eligible", [all_eligible] true and both totals
    0. *)
Theorem empty_check_is_eligible support sc (c : SupportCase) cust
    (dd : gmap string string) (today : Z) :
  support !! sc = Some c → sc_customer_id c = cust →
  RefundCaseService.validate_refund_eligibility support sc cust [] dd today
  = Ok (mkEligibilityReport "Eligible" [] [] true (num_of_int 0)
          (num_of_int 0)).
Proof.
  intros Hsc Hown. unfold RefundCaseService.validate_refund_eligibility.
  rewrite Hsc. destruct (decide (sc_customer_id c ≠ cust)); [done|].
  reflexivity.
Qed.

End Verdict.

Section Creation.
Context `{Runtime}.

Lemma create_loop_returns dd lines acc total ps t :
  RefundCase.create_loop dd lines acc total = Ok (ps, t) →
  ∃ new,
    ps = acc ++ new
    ∧ Forall2 (line_stored dd) lines new
    ∧ t = foldl (λ a p, num_add a (num_mul (price p) (num_of_int (quantity p))))
            total new.
Proof.
  revert acc total. induction lines as [|line lines IH]; intros acc total; simpl.
  - intros [= <- <-]. exists []. by rewrite app_nil_r.
  - destruct (pl_product_id line) as [pid|] eqn:Hpid; [|done].
    destruct (pl_quantity line) as [q|] eqn:Hq; [|done].
    intros Hrun. destruct (IH _ _ Hrun) as (new & -> & Hall & ->).
    eexists (_ :: new). rewrite <- app_assoc. split; [reflexivity|].
    split; [|reflexivity]. constructor; [|done].
    unfold line_stored. simpl. by rewrite Hpid, Hq.
Qed.

(** An operation on a refund case touches neither its product lines nor its
    total. *)
Lemma after_keeps_lines (rc : RefundCase) (op : operation) :
  products (after rc op) = products rc
  ∧ total_refund_amount (after rc op) = total_refund_amount rc.
Proof.
  destruct op as [agent now|agent reason now|now|dd today]; simpl.
  - rewrite approve_refund_run. by destruct (decide _).
  - rewrite reject_refund_run. by destruct (decide _).
  - rewrite complete_refund_run. by destruct (decide _).
  - rewrite calculate_eligibility_run.
    by destruct (RefundCase.calculate_eligibility_loop _ _ _ _ _) as [[el inel]|e].
Qed.

Lemma after_all_keeps_lines (ops : list operation) (rc : RefundCase) :
  products (foldl after rc ops) = products rc
  ∧ total_refund_amount (foldl after rc ops) = total_refund_amount rc.
Proof.
  revert rc. induction ops as [|op ops IH]; intros rc; simpl; [done|].
  destruct (IH (after rc op)) as [-> ->]. apply after_keeps_lines.
Qed.

(** What the factory returns. *)
Lemma create_from_support_case_returns sc cust order lines dd new_id now today
    (rc : RefundCase) :
  RefundCase.create_from_support_case sc cust order lines dd new_id now today
  = Ok rc →
  ∃ ps t verdict,
    RefundCase.create_loop dd lines [] (num_of_int 0) = Ok (ps, t)
    ∧ rc = mkRefundCase new_id sc cust order PENDING (Some verdict) t now None
             None None ps
             [mkHistoryEntry "refund_requested" now cust
                [("initial_status", "Pending");
                 ("eligibility", eligibility_value verdict)]].
Proof.
  unfold RefundCase.create_from_support_case, rbind.
  destruct (RefundCase.create_loop dd lines [] (num_of_int 0))
    as [[ps t]|e]; [|done].
  unfold bind at 1. rewrite calculate_eligibility_run. simpl.
  destruct (RefundCase.calculate_eligibility_loop _ _ _ _ _)
    as [[el inel]|e]; [|done].
  intros [= <-]. by exists ps, t, (RefundCase.overall_status el inel).
Qed.

(** The factory raises a [KeyError] of its loop or the [ValueError] of the
    date parser, and nothing else. *)
Lemma create_from_support_case_raises sc cust order lines dd new_id now today e :
  RefundCase.create_from_support_case sc cust order lines dd new_id now today
  = Raise e →
  (∃ k, e = KeyError k) ∨ (∃ s, e = RefundCase.invalid_isoformat s).
Proof.
  unfold RefundCase.create_from_support_case, rbind.
  destruct (RefundCase.create_loop dd lines [] (num_of_int 0))
    as [[ps t]|e'] eqn:Hloop.
  - unfold bind at 1. rewrite calculate_eligibility_run,
      calculate_eligibility_loop_eq. simpl.
    destruct (first_malformed today dd ps) as [s|]; simpl; [|done].
    intros [= <-]. right. by exists s.
  - intros [= <-]. left. clear -Hloop.
    revert Hloop. generalize (num_of_int 0). generalize (@nil RefundProduct).
    induction lines as [|line lines IH]; intros acc total; simpl; [done|].
    destruct (pl_product_id line); [|intros [= <-]; by eexists].
    destruct (pl_quantity line); [|intros [= <-]; by eexists].
    apply IH.
Qed.

(** Every refund case returned by the factory has its eligibility status
    set, and no later operation unsets it: [to_dict] never fails on it. *)
Lemma eligibility_status_is_set sc cust order lines dd new_id now today
    (rc : RefundCase) (ops : list operation) :
  RefundCase.create_from_support_case sc cust order lines dd new_id now today
  = Ok rc →
  is_Some (eligibility_status (foldl after rc ops)).
Proof.
  intros Hrun.
  destruct (create_from_support_case_returns _ _ _ _ _ _ _ _ _ Hrun)
    as (ps & t & verdict & _ & ->).
  assert (is_Some (eligibility_status
                     (mkRefundCase new_id sc cust order PENDING (Some verdict)
                        t now None None None ps
                        [mkHistoryEntry "refund_requested" now cust
                           [("initial_status", "Pending");
                            ("eligibility", eligibility_value verdict)]])))
    as Hset by (by eexists).
  revert Hset. generalize (mkRefundCase new_id sc cust order PENDING
                             (Some verdict) t now None None None ps
                             [mkHistoryEntry "refund_requested" now cust
                                [("initial_status", "Pending");
                                 ("eligibility", eligibility_value verdict)]]).
  induction ops as [|op ops IH]; intros rc Hset; simpl; [done|].
  apply IH. destruct op as [agent t'|agent reason t'|t'|dd' today']; simpl.
  - by rewrite approve_keeps_eligibility.
  - by rewrite reject_keeps_eligibility.
  - by rewrite complete_keeps_eligibility.
  - rewrite calculate_eligibility_run.
    destruct (RefundCase.calculate_eligibility_loop _ _ _ _ _)
      as [[el inel]|e]; [by eexists|done].
Qed.

(** C8.  A refund case returned by the factory stores one line per
    submitted line (a missing price stored as 0), its total is the sum of
    price times quantity over these lines, and the total is the same after
    any sequence of approve, reject, complete and eligibility
    recomputation, whether each of them returns or raises. *)
Theorem total_refund_amount_fixed sc cust order lines dd new_id now today
    (rc : RefundCase) :
  RefundCase.create_from_support_case sc cust order lines dd new_id now today
  = Ok rc →
  Forall2 (line_stored dd) lines (products rc)
  ∧ total_refund_amount rc = sum_price_quantity (products rc)
  ∧ ∀ ops : list operation,
      total_refund_amount (foldl after rc ops) = total_refund_amount rc.
Proof.
  intros Hrun.
  destruct (create_from_support_case_returns _ _ _ _ _ _ _ _ _ Hrun)
    as (ps & t & verdict & Hloop & ->). simpl.
  destruct (create_loop_returns _ _ _ _ _ _ Hloop) as (new & -> & Hall & ->).
  split_and!; [done|done|].
  intros ops. apply after_all_keeps_lines.
Qed.

(** C9.  In a refund case returned by the factory every stored line has
    [eligibility = "Eligible"], whatever the verdict of the case, and the
    stored lines are the same after any sequence of approve, reject,
    complete and eligibility recomputation. *)
Theorem line_eligibility_is_constant sc cust order lines dd new_id now today
    (rc : RefundCase) :
  RefundCase.create_from_support_case sc cust order lines dd new_id now today
  = Ok rc →
  ∀ ops : list operation,
    products (foldl after rc ops) = products rc
    ∧ Forall (λ p, eligibility p = "Eligible") (products (foldl after rc ops)).
Proof.
  intros Hrun ops.
  destruct (after_all_keeps_lines ops rc) as [Hps _]. split; [done|].
  rewrite Hps.
  destruct (create_from_support_case_returns _ _ _ _ _ _ _ _ _ Hrun)
    as (ps & t & verdict & Hloop & ->). simpl.
  destruct (create_loop_returns _ _ _ _ _ _ Hloop) as (new & -> & Hall & _).
  simpl. clear -Hall. induction Hall as [|line p lines new Hp _ IH]; [done|].
  constructor; [|done]. apply Hp.
Qed.

End Creation.

Section Conflicts.
Context `{Runtime}.

Lemma active_status (rc : RefundCase) :
  status_value (status rc) ∈ ["Pending"; "Approved"] ↔ active rc.
Proof.
  unfold active. rewrite !elem_of_cons, elem_of_nil.
  destruct (status rc); simpl; intuition congruence.
Qed.

Lemma conflicts_of_case_eq (rc : RefundCase) ps ids acc :
  RefundCaseRepository.conflicts_of_case rc ps ids acc =
  acc ++ List.map (λ p, mkConflict (id rc) (product_id p) (status rc))
           (List.filter (λ p, bool_decide (product_id p ∈ ids)) ps).
Proof.
  revert acc. induction ps as [|p ps IH]; intros acc; simpl.
  - by rewrite app_nil_r.
  - destruct (decide (product_id p ∈ ids)) as [Hin|Hout].
    + rewrite (bool_decide_eq_true_2 _ Hin). simpl. rewrite IH.
      by rewrite <- app_assoc.
    + rewrite (bool_decide_eq_false_2 _ Hout). apply IH.
Qed.

Lemma elem_of_conflicts_loop (rcs : list RefundCase) ids acc k :
  k ∈ RefundCaseRepository.conflicts_loop rcs ids acc ↔
  k ∈ acc
  ∨ ∃ rc p, rc ∈ rcs ∧ active rc ∧ p ∈ products rc ∧ product_id p ∈ ids
            ∧ k = mkConflict (id rc) (product_id p) (status rc).
Proof.
  revert acc. induction rcs as [|rc rcs IH]; intros acc; simpl.
  - split; [by left|]. intros [Hk|(rc & p & Hrc & _)]; [done|].
    by apply elem_of_nil in Hrc.
  - destruct (decide _) as [Hact|Hnot]; rewrite IH.
    + rewrite conflicts_of_case_eq, elem_of_app. split.
      * intros [[Hk|Hk]|(rc' & p & Hrc & Hrest)]; [by left| |].
        -- right. apply list_elem_of_In, in_map_iff in Hk as (p & <- & Hp).
           apply filter_In in Hp as [Hp Hid].
           apply bool_decide_eq_true in Hid.
           exists rc, p. split_and!; try done; [apply list_elem_of_here| |].
           ++ by apply active_status.
           ++ by apply list_elem_of_In.
        -- right. exists rc', p. split; [by apply list_elem_of_further|done].
      * intros [Hk|(rc' & p & Hrc & Ha & Hp & Hid & ->)]; [by left; left|].
        apply elem_of_cons in Hrc as [->|Hrc].
        -- left. right. apply list_elem_of_In, in_map_iff. exists p.
           split; [done|]. apply filter_In. split; [by apply list_elem_of_In|].
           by apply bool_decide_eq_true.
        -- right. by exists rc', p.
    + split.
      * intros [Hk|(rc' & p & Hrc & Hrest)]; [by left|].
        right. exists rc', p. split; [by apply list_elem_of_further|done].
      * intros [Hk|(rc' & p & Hrc & Ha & Hrest)]; [by left|].
        apply elem_of_cons in Hrc as [->|Hrc].
        -- destruct Hnot. by apply active_status.
        -- right. by exists rc', p.
Qed.

Lemma elem_of_find_by_support_case (table : list RefundCase) sc rc :
  rc ∈ RefundCaseRepository.find_by_support_case table sc
  ↔ rc ∈ table ∧ support_case_id rc = sc.
Proof.
  unfold RefundCaseRepository.find_by_support_case,
    BaseRepository.find_all_by_field.
  rewrite !list_elem_of_In, filter_In, bool_decide_eq_true.
  unfold BaseRepository.column. simpl. split.
  - intros [Hin [= Heq]]. done.
  - intros [Hin <-]. done.
Qed.

(** A request that passes [validate_refund_request] names a product id on
    every line. *)
Lemma requested_ids_of_valid (lines : list ProductLine) :
  RefundCaseRepository.validate_lines lines = Ok tt →
  ∃ ids, RefundCaseService.requested_ids lines = Ok ids
         ∧ ∀ pid, pid ∈ ids ↔ requested lines pid.
Proof.
  induction lines as [|line lines IH]; simpl.
  - intros _. exists []. split; [done|]. intros pid. split.
    + intros Hin. by apply elem_of_nil in Hin.
    + intros (l & Hl & _). by apply elem_of_nil in Hl.
  - destruct (RefundCaseRepository.invalid_line line) eqn:Hinv; [done|].
    intros Hrest. destruct (IH Hrest) as (ids & Hids & Hmem).
    unfold RefundCaseRepository.invalid_line in Hinv.
    apply orb_false_iff in Hinv as [Hpid _].
    apply bool_decide_eq_false in Hpid.
    destruct (pl_product_id line) as [pid0|] eqn:Hline; [|done].
    rewrite Hids. simpl. exists (pid0 :: ids). split; [done|].
    intros pid. rewrite elem_of_cons, Hmem. unfold requested. split.
    + intros [->|(l & Hl & Hlp)].
      * exists line. split; [apply list_elem_of_here|done].
      * exists l. split; [by apply list_elem_of_further|done].
    + intros (l & Hl & Hlp). apply elem_of_cons in Hl as [->|Hl].
      * left. congruence.
      * right. by exists l.
Qed.

Lemma validate_refund_request_ok sc cust (lines : list ProductLine) v :
  RefundCaseRepository.validate_refund_request sc cust lines = Ok v →
  RefundCaseRepository.validate_lines lines = Ok tt.
Proof.
  unfold RefundCaseRepository.validate_refund_request, rbind.
  destruct (_ || _); [done|]. destruct (bool_decide _); [done|].
  by destruct (RefundCaseRepository.validate_lines lines) as [[]|].
Qed.

(** The conflict check of the repository, by its list. *)
Lemma check_existing_refunds_eq (table : list RefundCase) sc ids :
  let conflicts :=
    RefundCaseRepository.conflicts_loop
      (RefundCaseRepository.find_by_support_case table sc) ids [] in
  RefundCaseRepository.check_existing_refunds table sc ids =
  match conflicts with
  | [] => mkConflictCheck false None "No conflicting refund requests found"
  | _ :: _ =>
    mkConflictCheck true (Some conflicts)
      "Some products already have active refund requests"
  end.
Proof.
  simpl. unfold RefundCaseRepository.check_existing_refunds.
  by destruct (RefundCaseRepository.conflicts_loop _ _ _).
Qed.

End Conflicts.

Section ConflictDetection.
Context `{Runtime}.

Lemma create_refund_case_no_conflict sc cust order lines dd new_id now today
    (table : list RefundCase) L :
  ¬ fails_with
      (RefundCaseRepository.create_refund_case sc cust order lines dd new_id
         now today) table (conflict_exception L).
Proof.
  unfold fails_with, RefundCaseRepository.create_refund_case, bind, lift.
  destruct (RefundCase.create_from_support_case _ _ _ _ _ _ _ _) as [rc|e] eqn:Hrun;
    simpl; [done|].
  intros [= ->].
  by destruct (create_from_support_case_raises _ _ _ _ _ _ _ _ _ Hrun)
    as [[k Hk]|[s Hs]].
Qed.

(** A request that has passed the checks on its shape and on the support
    case reaches the conflict check, which decides between the rejection and
    the creation. *)
Lemma create_refund_request_at_conflict_check support (table : list RefundCase)
    sc (c : SupportCase) cust lines dd new_id now today v :
  RefundCaseRepository.validate_refund_request sc cust lines = Ok v →
  support !! sc = Some c → sc_customer_id c = cust → sc_status c = "Open" →
  ∃ ids,
    (∀ pid, pid ∈ ids ↔ requested lines pid)
    ∧ RefundCaseService.create_refund_request support sc cust lines dd new_id
        now today table
      = match RefundCaseRepository.conflicts_loop
                (RefundCaseRepository.find_by_support_case table sc) ids [] with
        | [] =>
          RefundCaseRepository.create_refund_case sc cust (sc_order_id c) lines
            dd new_id now today table
        | k :: L => (Raise (conflict_exception (k :: L)), table)
        end.
Proof.
  intros Hvalid Hsc Hown Hopen.
  destruct (requested_ids_of_valid lines
              (validate_refund_request_ok _ _ _ _ Hvalid)) as (ids & Hids & Hmem).
  exists ids. split; [done|].
  unfold RefundCaseService.create_refund_request, bind at 1, lift.
  rewrite Hvalid, Hsc.
  destruct (decide (sc_customer_id c ≠ cust)); [done|].
  destruct (decide (sc_status c ≠ "Open")); [done|].
  unfold bind, lift, get. rewrite Hids, check_existing_refunds_eq.
  by destruct (RefundCaseRepository.conflicts_loop _ _ _).
Qed.

(** A creation that returns has appended the new record, built by the
    factory, to the table; a creation that raises leaves the table as it
    was. *)
Lemma create_refund_request_outcome support (table : list RefundCase) sc cust
    lines dd new_id now today :
  match RefundCaseService.create_refund_request support sc cust lines dd
          new_id now today table with
  | (Ok rc, table') =>
    table' = table ++ [rc]
    ∧ ∃ c : SupportCase,
        support !! sc = Some c
        ∧ RefundCase.create_from_support_case sc cust (sc_order_id c) lines dd
            new_id now today = Ok rc
  | (Raise _, table') => table' = table
  end.
Proof.
  unfold RefundCaseService.create_refund_request, bind at 1, lift.
  destruct (RefundCaseRepository.validate_refund_request sc cust lines);
    [|done].
  destruct (support !! sc) as [c|]; [|done].
  destruct (decide (sc_customer_id c ≠ cust)); [done|].
  destruct (decide (sc_status c ≠ "Open")); [done|].
  unfold bind, lift, get.
  destruct (RefundCaseService.requested_ids lines) as [ids|]; [|done].
  destruct (has_conflicts _); [done|].
  unfold RefundCaseRepository.create_refund_case, bind, lift,
    BaseRepository.create.
  destruct (RefundCase.create_from_support_case _ _ _ _ _ _ _ _) as [rc|e] eqn:Hrun;
    [|done].
  split; [done|]. by exists c.
Qed.

(** C4, as amended.  For a request that has passed the earlier checks (a
    well-formed request on an existing support case that the requester owns
    and that is Open), creation is rejected with the business-rule exception
    that carries the conflict list if and only if some requested product id
    is on a line of a Pending or Approved refund case of the same support
    case; the list holds exactly the (refund id, product id, status) triples
    of these lines, the table is left as it was, and refund cases that are
    Rejected or Completed never cause this rejection. *)
Theorem conflicts_block_creation support (table : list RefundCase) sc
    (c : SupportCase) cust lines dd new_id now today v :
  RefundCaseRepository.validate_refund_request sc cust lines = Ok v →
  support !! sc = Some c → sc_customer_id c = cust → sc_status c = "Open" →
  let create :=
    RefundCaseService.create_refund_request support sc cust lines dd new_id
      now today in
  ((∃ k, conflict_of table sc lines k)
   ↔ ∃ L, create table = (Raise (conflict_exception L), table))
  ∧ (∀ L, fails_with create table (conflict_exception L) →
     ∀ k, k ∈ L ↔ conflict_of table sc lines k)
  ∧ ((∀ rc, rc ∈ table → support_case_id rc = sc →
      status rc = REJECTED ∨ status rc = COMPLETED) →
     ∀ L, ¬ fails_with create table (conflict_exception L)).
Proof.
  intros Hvalid Hsc Hown Hopen create.
  destruct (create_refund_request_at_conflict_check support table sc c cust
              lines dd new_id now today v Hvalid Hsc Hown Hopen)
    as (ids & Hmem & Hrun).
  fold create in Hrun.
  assert (∀ k, k ∈ RefundCaseRepository.conflicts_loop
                     (RefundCaseRepository.find_by_support_case table sc) ids []
               ↔ conflict_of table sc lines k) as Hlist.
  { intros k. rewrite elem_of_conflicts_loop. unfold conflict_of. split.
    - intros [Hk|(rc & p & Hrc & Ha & Hp & Hid & ->)];
        [by apply elem_of_nil in Hk|].
      apply elem_of_find_by_support_case in Hrc as [Hrc Hsup].
      exists rc, p. split_and!; try done. by apply Hmem.
    - intros (rc & p & Hrc & Hsup & Ha & Hp & Hid & ->). right.
      exists rc, p. split_and!; try done.
      + by apply elem_of_find_by_support_case.
      + by apply Hmem. }
  destruct (RefundCaseRepository.conflicts_loop
              (RefundCaseRepository.find_by_support_case table sc) ids [])
    as [|k0 L0] eqn:Hloop.
  - assert (∀ L, ¬ fails_with create table (conflict_exception L)) as Hnever.
    { intros L. unfold fails_with. rewrite Hrun.
      apply create_refund_case_no_conflict. }
    split_and!.
    + split.
      * intros [k Hk]. apply Hlist in Hk. by apply elem_of_nil in Hk.
      * intros [L HL]. destruct (Hnever L). unfold fails_with. by rewrite HL.
    + intros L HL. by destruct (Hnever L).
    + done.
  - split_and!.
    + split; [intros _; by exists (k0 :: L0)|].
      intros _. exists k0. apply Hlist. apply list_elem_of_here.
    + intros L HL. unfold fails_with in HL. rewrite Hrun in HL.
      injection HL as <-. done.
    + intros Hterminal L _.
      destruct (proj1 (Hlist k0) (list_elem_of_here _ _))
        as (rc & p & Hrc & Hsup & Ha & _).
      destruct (Hterminal rc Hrc Hsup) as [Hs|Hs], Ha as [Ha|Ha]; congruence.
Qed.

(** C7, as amended.  GetRefund tells a missing refund case (not found)
    from one owned by another customer (access denied).
    ListRefundsForSupportCase does not: a missing support case and one owned
    by another customer both give the same access-denied business-rule
    exception. *)
Theorem read_access_control (table : list RefundCase) support
    (refund_id sc cust : string) :
  (BaseRepository.find_by_id table refund_id = None →
   RefundCaseService.get_refund_case table refund_id cust
   = Raise (NotFoundException "RefundCase" ("ID " +:+ refund_id)))
  ∧ (∀ rc, BaseRepository.find_by_id table refund_id = Some rc →
     (customer_id rc ≠ cust →
      RefundCaseService.get_refund_case table refund_id cust
      = Raise (BusinessRuleException
                 "Access denied: Customer does not own this refund case" None))
     ∧ (customer_id rc = cust →
        RefundCaseService.get_refund_case table refund_id cust = Ok rc))
  ∧ (support !! sc = None →
     RefundCaseService.get_refund_cases_by_support_case support table sc cust
     = Raise (BusinessRuleException
                "Access denied: Customer does not own this support case" None))
  ∧ (∀ c : SupportCase, support !! sc = Some c →
     (sc_customer_id c ≠ cust →
      RefundCaseService.get_refund_cases_by_support_case support table sc cust
      = Raise (BusinessRuleException
                 "Access denied: Customer does not own this support case" None))
     ∧ (sc_customer_id c = cust →
        RefundCaseService.get_refund_cases_by_support_case support table sc
          cust
        = Ok (RefundCaseRepository.find_by_support_case table sc))).
Proof.
  unfold RefundCaseService.get_refund_case,
    RefundCaseService.get_refund_cases_by_support_case. split_and!.
  - by intros ->.
  - intros rc ->. split; intros Hc; by destruct (decide _).
  - by intros ->.
  - intros c ->. split; intros Hc; by destruct (decide _).
Qed.

End ConflictDetection.

(** * Further properties of the model, the repository and the service *)

Section Lifecycle.
Context `{Runtime}.

(** An eligibility recomputation assigns [eligibility_status] and nothing
    else. *)
Lemma recompute_sets_eligibility dd today (rc : RefundCase) :
  ∃ v, after rc (Recompute dd today) = RefundCase.set_eligibility_status v rc.
Proof.
  simpl. rewrite calculate_eligibility_run.
  destruct (RefundCase.calculate_eligibility_loop _ _ _ _ _) as [[el inel]|e].
  - by eexists.
  - exists (eligibility_status rc). by destruct rc.
Qed.

Lemma history_after (rc : RefundCase) (op : operation) :
  history (after rc op) = history rc ++ logged rc op.
Proof.
  destruct op as [agent now|agent reason now|now|dd today].
  - simpl. rewrite approve_refund_run.
    destruct (decide (status rc ≠ PENDING)) as [Hne|Heq]; simpl.
    + destruct (decide (status rc = PENDING)); [done|]. by rewrite app_nil_r.
    + apply dec_stable in Heq. by destruct (decide (status rc = PENDING)).
  - simpl. rewrite reject_refund_run.
    destruct (decide (status rc ≠ PENDING)) as [Hne|Heq]; simpl.
    + destruct (decide (status rc = PENDING)); [done|]. by rewrite app_nil_r.
    + apply dec_stable in Heq. by destruct (decide (status rc = PENDING)).
  - simpl. rewrite complete_refund_run.
    destruct (decide (status rc ≠ APPROVED)) as [Hne|Heq]; simpl.
    + destruct (decide (status rc = APPROVED)); [done|]. by rewrite app_nil_r.
    + apply dec_stable in Heq. by destruct (decide (status rc = APPROVED)).
  - destruct (recompute_sets_eligibility dd today rc) as [v ->].
    simpl. by rewrite app_nil_r.
Qed.

Lemma logged_at_most_one (rc : RefundCase) (op : operation) :
  (length (logged rc op) ≤ 1)%nat.
Proof. destruct op; simpl; try case_decide; simpl; lia. Qed.

(** X1.  The history is append-only.  One operation appends exactly the
    entry of the transition it performs (its action, its clock reading, the
    agent or "system", its details) when the transition returns, and
    nothing when it raises or when it is an eligibility recomputation; after
    any sequence of operations the old history is a prefix of the new one,
    which has grown by at most one entry per operation. *)
Theorem history_is_append_only (rc : RefundCase) (ops : list operation) :
  (∀ op, history (after rc op) = history rc ++ logged rc op)
  ∧ ∃ suffix,
      history (foldl after rc ops) = history rc ++ suffix
      ∧ (length suffix ≤ length ops)%nat.
Proof.
  split; [apply history_after|].
  revert rc. induction ops as [|op ops IH]; intros rc; simpl.
  - exists []. by rewrite app_nil_r.
  - destruct (IH (after rc op)) as (suffix & -> & Hlen).
    rewrite history_after, <- app_assoc.
    exists (logged rc op ++ suffix). split; [done|].
    rewrite length_app. pose proof (logged_at_most_one rc op). lia.
Qed.

Lemma status_after (rc : RefundCase) (op : operation) :
  status (after rc op) = status rc
  ∨ legal_step (status rc) (status (after rc op)).
Proof.
  unfold legal_step.
  destruct op as [agent now|agent reason now|now|dd today].
  - simpl. rewrite approve_refund_run.
    destruct (decide (status rc ≠ PENDING)) as [Hne|Heq]; simpl; [by left|].
    apply dec_stable in Heq. right. by left.
  - simpl. rewrite reject_refund_run.
    destruct (decide (status rc ≠ PENDING)) as [Hne|Heq]; simpl; [by left|].
    apply dec_stable in Heq. right. right. by left.
  - simpl. rewrite complete_refund_run.
    destruct (decide (status rc ≠ APPROVED)) as [Hne|Heq]; simpl; [by left|].
    apply dec_stable in Heq. right. right. by right.
  - destruct (recompute_sets_eligibility dd today rc) as [v ->]. by left.
Qed.

(** X2.  The status only moves along Pending -> Approved, Pending ->
    Rejected and Approved -> Completed: whatever operations are attempted,
    in whatever order, the status reached is linked to the initial one by a
    chain of these edges, and a case that has left Pending never is Pending
    again. *)
Theorem status_moves_forward (rc : RefundCase) (ops : list operation) :
  rtc legal_step (status rc) (status (foldl after rc ops))
  ∧ (status rc ≠ PENDING → status (foldl after rc ops) ≠ PENDING).
Proof.
  assert (rtc legal_step (status rc) (status (foldl after rc ops))) as Hrtc.
  { revert rc. induction ops as [|op ops IH]; intros rc; simpl; [done|].
    destruct (status_after rc op) as [Heq|Hstep].
    - rewrite <- Heq. apply IH.
    - eapply rtc_l; [exact Hstep|apply IH]. }
  split; [done|].
  intros Hne. induction Hrtc as [s|s s' s'' Hstep _ IH]; [done|].
  apply IH. unfold legal_step in Hstep.
  destruct Hstep as [[_ ->]|[[_ ->]|[_ ->]]]; done.
Qed.

(** X3.  Rejected and Completed are terminal: from either, no sequence of
    operations changes the status, the history, processed_at, agent_id or
    rejection_reason (an eligibility recomputation may still assign
    eligibility_status). *)
Theorem terminal_status_absorbs (rc : RefundCase) (ops : list operation) :
  status rc = REJECTED ∨ status rc = COMPLETED →
  status (foldl after rc ops) = status rc
  ∧ history (foldl after rc ops) = history rc
  ∧ processed_at (foldl after rc ops) = processed_at rc
  ∧ agent_id (foldl after rc ops) = agent_id rc
  ∧ rejection_reason (foldl after rc ops) = rejection_reason rc.
Proof.
  revert rc. induction ops as [|op ops IH]; intros rc Hterminal; simpl; [done|].
  assert (status (after rc op) = status rc
          ∧ history (after rc op) = history rc
          ∧ processed_at (after rc op) = processed_at rc
          ∧ agent_id (after rc op) = agent_id rc
          ∧ rejection_reason (after rc op) = rejection_reason rc)
    as (Hs & Hh & Hp & Ha & Hr).
  { destruct op as [agent now|agent reason now|now|dd today].
    - simpl. rewrite approve_refund_run.
      destruct (decide (status rc ≠ PENDING)) as [Hne|Heq]; [done|].
      apply dec_stable in Heq. destruct Hterminal; congruence.
    - simpl. rewrite reject_refund_run.
      destruct (decide (status rc ≠ PENDING)) as [Hne|Heq]; [done|].
      apply dec_stable in Heq. destruct Hterminal; congruence.
    - simpl. rewrite complete_refund_run.
      destruct (decide (status rc ≠ APPROVED)) as [Hne|Heq]; [done|].
      apply dec_stable in Heq. destruct Hterminal; congruence.
    - by destruct (recompute_sets_eligibility dd today rc) as [v ->]. }
  destruct (IH (after rc op)) as (Hs' & Hh' & Hp' & Ha' & Hr').
  { by rewrite Hs. }
  split_and!; congruence.
Qed.

Lemma lifecycle_after (rc : RefundCase) (op : operation) :
  lifecycle rc → lifecycle (after rc op).
Proof.
  intros Hinv. destruct op as [agent now|agent reason now|now|dd today].
  - simpl. rewrite approve_refund_run.
    destruct (decide (status rc ≠ PENDING)) as [Hne|Heq]; [done|].
    apply dec_stable in Heq. unfold lifecycle in *. rewrite Heq in Hinv.
    destruct Hinv as (_ & _ & Hr & Hh). simpl.
    split_and!; try by eexists. { done. } by rewrite fmap_app, Hh.
  - simpl. rewrite reject_refund_run.
    destruct (decide (status rc ≠ PENDING)) as [Hne|Heq]; [done|].
    apply dec_stable in Heq. unfold lifecycle in *. rewrite Heq in Hinv.
    destruct Hinv as (_ & _ & Hr & Hh). simpl.
    split_and!; try by eexists. by rewrite fmap_app, Hh.
  - simpl. rewrite complete_refund_run.
    destruct (decide (status rc ≠ APPROVED)) as [Hne|Heq]; [done|].
    apply dec_stable in Heq. unfold lifecycle in *. rewrite Heq in Hinv.
    destruct Hinv as (Hp & Ha & Hr & Hh). simpl.
    split_and!; try done. by rewrite fmap_app, Hh.
  - destruct (recompute_sets_eligibility dd today rc) as [v ->].
    by destruct rc.
Qed.

(** X4.  A refund case returned by the factory keeps, under any sequence of
    operations, the shape that goes with its status: while Pending it has no
    processed_at, agent_id or rejection_reason and its history is
    [refund_requested]; once Approved or Rejected it has processed_at and
    agent_id (and rejection_reason exactly when Rejected) and one more
    history entry naming the decision; once Completed its history is
    requested, approved, completed.  The history thus has one entry per
    lifecycle event, in order. *)
Theorem lifecycle_is_kept sc cust order lines dd new_id now today
    (rc : RefundCase) (ops : list operation) :
  RefundCase.create_from_support_case sc cust order lines dd new_id now today
  = Ok rc →
  lifecycle (foldl after rc ops).
Proof.
  intros Hrun.
  assert (lifecycle rc) as Hinv.
  { destruct (create_from_support_case_returns _ _ _ _ _ _ _ _ _ Hrun)
      as (ps & t & verdict & _ & ->). by unfold lifecycle. }
  clear Hrun. revert rc Hinv.
  induction ops as [|op ops IH]; intros rc Hinv; simpl; [done|].
  by apply IH, lifecycle_after.
Qed.

End Lifecycle.

Section StoredTransitions.
Context `{Runtime}.

Lemma find_by_id_found (table : list RefundCase) key rc :
  BaseRepository.find_by_id table key = Some rc → id rc = key ∧ rc ∈ table.
Proof.
  intros Hfind. apply find_some in Hfind as [Hin Hid].
  apply bool_decide_eq_true in Hid. split; [done|]. by apply list_elem_of_In.
Qed.

Lemma find_by_id_update_same (table : list RefundCase) key rc data :
  BaseRepository.find_by_id table key = Some rc → id data = key →
  BaseRepository.find_by_id
    (List.map (λ row, if decide (id row = key) then data else row) table) key
  = Some data.
Proof.
  intros Hfind Hid. unfold BaseRepository.find_by_id in *.
  induction table as [|row table IH]; simpl in *; [done|].
  destruct (decide (id row = key)) as [Hrow|Hrow].
  - by rewrite (bool_decide_eq_true_2 _ Hid).
  - rewrite (bool_decide_eq_false_2 _ Hrow) in *. by apply IH.
Qed.

Lemma find_by_id_update_other (table : list RefundCase) key other data :
  other ≠ key → id data = key →
  BaseRepository.find_by_id
    (List.map (λ row, if decide (id row = key) then data else row) table)
    other
  = BaseRepository.find_by_id table other.
Proof.
  intros Hne Hid. unfold BaseRepository.find_by_id.
  induction table as [|row table IH]; simpl; [done|].
  destruct (decide (id row = key)) as [Hrow|Hrow].
  - rewrite bool_decide_eq_false_2 by congruence.
    rewrite (bool_decide_eq_false_2 (id row = other)) by congruence. apply IH.
  - destruct (bool_decide (id row = other)); [done|apply IH].
Qed.

(** The methods of the model never assign [id]. *)
Lemma id_after (rc : RefundCase) (op : operation) : id (after rc op) = id rc.
Proof.
  destruct op as [agent now|agent reason now|now|dd today]; simpl.
  - rewrite approve_refund_run. by destruct (decide _).
  - rewrite reject_refund_run. by destruct (decide _).
  - rewrite complete_refund_run. by destruct (decide _).
  - rewrite calculate_eligibility_run.
    by destruct (RefundCase.calculate_eligibility_loop _ _ _ _ _) as [[el inel]|e].
Qed.

(** A guarded transition from the required status stores the record that
    the method of the model leaves. *)
Lemma transition_stores (table : list RefundCase) refund_id rc
    (required : RefundCaseStatus) message method :
  BaseRepository.find_by_id table refund_id = Some rc →
  is_Some (eligibility_status rc) →
  model_guard method required message →
  keeps_eligibility method →
  id (method rc).2 = id rc →
  status rc = required →
  stored
    (RefundCaseRepository.transition refund_id (status_value required) message
       method)
    table refund_id (method rc).2.
Proof.
  intros Hfind Hel Hguard Hkeep Hid Hst.
  destruct (transition_right_state _ _ _ _ _ _ Hfind Hel Hguard Hkeep Hst)
    as (rc' & Hrun & Htable).
  rewrite Hrun in *. simpl in *.
  destruct (find_by_id_found _ _ _ Hfind) as [Hkey _].
  eexists. split; [exact Htable|]. split_and!.
  - apply (find_by_id_update_same table refund_id rc); congruence.
  - intros other Hne. apply find_by_id_update_other; congruence.
  - apply length_map.
Qed.

(** X5.  A repository transition that returns has stored what it returns.
    From Pending, approve returns a record that is Approved with
    processed_at = now and the agent, and reject one that is Rejected with
    processed_at = now, the agent and the reason; from Approved, complete
    returns a Completed record whose processed_at and agent_id are those of
    the approval.  In each case a later lookup of the id finds exactly the
    returned record, lookups of other ids are unaffected and no row is added
    or removed. *)
Theorem successful_transition_is_stored (table : list RefundCase)
    (refund_id : string) (rc : RefundCase) (agent reason : string) (now : Z) :
  BaseRepository.find_by_id table refund_id = Some rc →
  is_Some (eligibility_status rc) →
  (status rc = PENDING →
   (∃ rc', stored (RefundCaseRepository.approve_refund refund_id agent now)
             table refund_id rc'
           ∧ status rc' = APPROVED ∧ processed_at rc' = Some now
           ∧ agent_id rc' = Some agent
           ∧ history rc'
             = history rc ++ logged rc (Approve agent now))
   ∧ (∃ rc', stored
               (RefundCaseRepository.reject_refund refund_id agent reason now)
               table refund_id rc'
             ∧ status rc' = REJECTED ∧ processed_at rc' = Some now
             ∧ agent_id rc' = Some agent
             ∧ rejection_reason rc' = Some reason
             ∧ history rc'
               = history rc ++ logged rc (Reject agent reason now)))
  ∧ (status rc = APPROVED →
     ∃ rc', stored (RefundCaseRepository.complete_refund refund_id now) table
              refund_id rc'
            ∧ status rc' = COMPLETED ∧ processed_at rc' = processed_at rc
            ∧ agent_id rc' = agent_id rc
            ∧ history rc' = history rc ++ logged rc (Complete now)).
Proof.
  intros Hfind Hel. split; [intros Hst; split|intros Hst].
  - exists (after rc (Approve agent now)). split.
    + apply (transition_stores table refund_id rc PENDING); try done.
      * apply approve_refund_guard.
      * apply approve_keeps_eligibility.
      * apply (id_after rc (Approve agent now)).
    + rewrite history_after. simpl. rewrite approve_refund_run.
      destruct (decide (status rc ≠ PENDING)); done.
  - exists (after rc (Reject agent reason now)). split.
    + apply (transition_stores table refund_id rc PENDING); try done.
      * apply reject_refund_guard.
      * apply reject_keeps_eligibility.
      * apply (id_after rc (Reject agent reason now)).
    + rewrite history_after. simpl. rewrite reject_refund_run.
      destruct (decide (status rc ≠ PENDING)); done.
  - exists (after rc (Complete now)). split.
    + apply (transition_stores table refund_id rc APPROVED); try done.
      * apply complete_refund_guard.
      * apply complete_keeps_eligibility.
      * apply (id_after rc (Complete now)).
    + rewrite history_after. simpl. rewrite complete_refund_run.
      destruct (decide (status rc ≠ APPROVED)); done.
Qed.

(** X6.  Approval is not repeatable.  Once approve has returned for a
    Pending case, a second approve and a reject of the same id raise the
    business-rule exception of their guard and leave the table as the first
    approve left it, while complete returns. *)
Theorem approval_is_not_repeatable (table : list RefundCase)
    (refund_id : string) (rc : RefundCase) (agent agent' reason : string)
    (now now' : Z) :
  BaseRepository.find_by_id table refund_id = Some rc →
  is_Some (eligibility_status rc) →
  status rc = PENDING →
  let table' :=
    (RefundCaseRepository.approve_refund refund_id agent now table).2 in
  RefundCaseRepository.approve_refund refund_id agent' now' table'
  = (Raise (BusinessRuleException "Only pending refunds can be approved" None),
     table')
  ∧ RefundCaseRepository.reject_refund refund_id agent' reason now' table'
    = (Raise (BusinessRuleException "Only pending refunds can be rejected"
                None),
       table')
  ∧ succeeds (RefundCaseRepository.complete_refund refund_id now') table'.
Proof.
  intros Hfind Hel Hst table'.
  destruct (transition_stores table refund_id rc PENDING
              "Only pending refunds can be approved"
              (RefundCase.approve_refund agent now) Hfind Hel
              (approve_refund_guard agent now)
              (approve_keeps_eligibility agent now)
              (id_after rc (Approve agent now)) Hst)
    as (t & Hrun & Hfind' & _).
  assert (table' = t) as ->.
  { subst table'. unfold RefundCaseRepository.approve_refund. simpl in Hrun.
    by rewrite Hrun. }
  set (rc' := (RefundCase.approve_refund agent now rc).2) in *.
  assert (status rc' = APPROVED ∧ is_Some (eligibility_status rc'))
    as [Hst' Hel'].
  { subst rc'. rewrite approve_refund_run.
    destruct (decide (status rc ≠ PENDING)); done. }
  split_and!.
  - apply (transition_wrong_state t refund_id rc' PENDING); [done|].
    by rewrite Hst'.
  - apply (transition_wrong_state t refund_id rc' PENDING); [done|].
    by rewrite Hst'.
  - apply (transition_guarded t refund_id rc' APPROVED _ _ Hfind' Hel'
             (complete_refund_guard now') (complete_keeps_eligibility now')).
    done.
Qed.

End StoredTransitions.

Section ConflictComposition.
Context `{Runtime}.

Lemma reported_iff (table : list RefundCase) sc ids k :
  reported (RefundCaseRepository.check_existing_refunds table sc ids) k
  ↔ k ∈ RefundCaseRepository.conflicts_loop
          (RefundCaseRepository.find_by_support_case table sc) ids [].
Proof.
  unfold reported. rewrite check_existing_refunds_eq. simpl.
  destruct (RefundCaseRepository.conflicts_loop _ _ _) as [|k0 L]; simpl.
  - split; [by intros (L & [=] & _)|]. intros Hk. by apply elem_of_nil in Hk.
  - split; [by intros (L' & [= <-] & Hk)|]. intros Hk. by eexists.
Qed.

Lemma reported_spec (table : list RefundCase) sc ids k :
  reported (RefundCaseRepository.check_existing_refunds table sc ids) k
  ↔ ∃ rc p, rc ∈ table ∧ support_case_id rc = sc ∧ active rc
            ∧ p ∈ products rc ∧ product_id p ∈ ids
            ∧ k = mkConflict (id rc) (product_id p) (status rc).
Proof.
  rewrite reported_iff, elem_of_conflicts_loop. split.
  - intros [Hk|(rc & p & Hrc & Hrest)]; [by apply elem_of_nil in Hk|].
    apply elem_of_find_by_support_case in Hrc as [Hrc Hsc]. by exists rc, p.
  - intros (rc & p & Hrc & Hsc & Hrest). right. exists rc, p.
    split; [by apply elem_of_find_by_support_case|done].
Qed.

(** X7.  A rejected refund stops blocking.  After reject has returned for a
    Pending refund case, the conflict check of any request reports exactly
    the triples it reported before that belong to other refund ids: the
    rejected case contributes none, and the triples of the other cases are
    untouched. *)
Theorem rejected_refund_stops_conflicting (table : list RefundCase)
    (refund_id : string) (rc : RefundCase) (agent reason : string) (now : Z)
    (sc : string) (ids : list string) (k : Conflict) :
  BaseRepository.find_by_id table refund_id = Some rc →
  is_Some (eligibility_status rc) →
  status rc = PENDING →
  let table' :=
    (RefundCaseRepository.reject_refund refund_id agent reason now table).2 in
  reported (RefundCaseRepository.check_existing_refunds table' sc ids) k
  ↔ reported (RefundCaseRepository.check_existing_refunds table sc ids) k
    ∧ c_refund_id k ≠ refund_id.
Proof.
  intros Hfind Hel Hst table'.
  destruct (transition_right_state table refund_id rc PENDING
              "Only pending refunds can be rejected"
              (RefundCase.reject_refund agent reason now) Hfind Hel
              (reject_refund_guard agent reason now)
              (reject_keeps_eligibility agent reason now) Hst)
    as (rc' & Hrun & Htable).
  assert (table'
          = List.map (λ row, if decide (id row = refund_id) then rc' else row)
              table) as ->.
  { subst table'. unfold RefundCaseRepository.reject_refund. simpl in Htable.
    by rewrite Htable. }
  assert (status rc' = REJECTED) as Hst'.
  { rewrite reject_refund_run in Hrun.
    destruct (decide (status rc ≠ PENDING)); [done|]. by injection Hrun as <-. }
  rewrite !reported_spec. split.
  - intros (rc0 & p & Hrc0 & Hsc & Ha & Hp & Hid & ->).
    apply list_elem_of_In, in_map_iff in Hrc0 as (row & Hrow & Hin).
    destruct (decide (id row = refund_id)) as [Heq|Hne].
    + subst rc0. destruct Ha as [Ha|Ha]; congruence.
    + subst rc0. split; [|done]. exists row, p. split_and!; try done.
      by apply list_elem_of_In.
  - intros [(rc0 & p & Hrc0 & Hsc & Ha & Hp & Hid & ->) Hne]. simpl in Hne.
    exists rc0, p. split_and!; try done.
    apply list_elem_of_In, in_map_iff. exists rc0.
    split; [|by apply list_elem_of_In].
    by destruct (decide (id rc0 = refund_id)).
Qed.

Lemma conflicts_loop_app (rcs : list RefundCase) ids acc :
  RefundCaseRepository.conflicts_loop rcs ids acc
  = acc ++ RefundCaseRepository.conflicts_loop rcs ids [].
Proof.
  revert acc. induction rcs as [|rc rcs IH]; intros acc; simpl.
  - by rewrite app_nil_r.
  - destruct (decide _); [|apply IH].
    rewrite IH, (IH (RefundCaseRepository.conflicts_of_case _ _ _ [])).
    rewrite !conflicts_of_case_eq. simpl. by rewrite app_assoc.
Qed.

(** X8.  The order of the conflict list.  The check lists the conflicts of
    the refund cases of the support case in table order, and within one
    refund case in the order of its stored lines, one triple per stored line
    whose product id is requested (a product id requested twice is listed
    once per stored line, not twice); the key ["conflicting_refunds"] is
    present exactly when this list is not empty. *)
Theorem conflict_list_order (table : list RefundCase) (sc : string)
    (ids : list string) :
  RefundCaseRepository.check_existing_refunds table sc ids
  = match conflict_triples table sc ids with
    | [] => mkConflictCheck false None "No conflicting refund requests found"
    | k :: L =>
      mkConflictCheck true (Some (k :: L))
        "Some products already have active refund requests"
    end.
Proof.
  rewrite check_existing_refunds_eq. simpl.
  assert (RefundCaseRepository.conflicts_loop
            (RefundCaseRepository.find_by_support_case table sc) ids []
          = conflict_triples table sc ids) as ->;
    [|by destruct (conflict_triples table sc ids)].
  unfold conflict_triples, RefundCaseRepository.find_by_support_case,
    BaseRepository.find_all_by_field.
  induction table as [|rc table IH]; simpl; [done|].
  unfold BaseRepository.column at 1. simpl.
  destruct (decide (support_case_id rc = sc)) as [Hsc|Hsc].
  - rewrite (bool_decide_eq_true_2 (Some (support_case_id rc) = Some sc))
      by congruence.
    rewrite (bool_decide_eq_true_2 _ Hsc). simpl.
    destruct (decide (status_value (status rc) ∈ ["Pending"; "Approved"]))
      as [Ha|Ha].
    + rewrite bool_decide_eq_true_2 by (by apply active_status).
      rewrite conflicts_loop_app, conflicts_of_case_eq. simpl.
      by rewrite IH.
    + rewrite bool_decide_eq_false_2
        by (intros Hact; by apply Ha, active_status).
      simpl. apply IH.
  - rewrite (bool_decide_eq_false_2 (Some (support_case_id rc) = Some sc))
      by congruence.
    rewrite (bool_decide_eq_false_2 _ Hsc). apply IH.
Qed.

(** X9.  A repeated claim is rejected.  When a creation has returned a new
    refund case, any later request on the same support case that passes the
    earlier checks and names a product id of the first request is rejected
    with the conflict exception, whatever happened to other rows of the
    table in between, as long as the new case is still in the table; the
    list names the new refund id, the product id and the status Pending, and
    the table is left as it was. *)
Theorem repeated_claim_is_rejected support (table later : list RefundCase) sc
    (c : SupportCase) cust lines lines' dd dd' new_id new_id' now now' today
    today' (rc : RefundCase) table' pid v :
  RefundCaseService.create_refund_request support sc cust lines dd new_id now
    today table = (Ok rc, table') →
  rc ∈ later →
  RefundCaseRepository.validate_refund_request sc cust lines' = Ok v →
  support !! sc = Some c → sc_customer_id c = cust → sc_status c = "Open" →
  requested lines pid → requested lines' pid →
  rc ∈ table'
  ∧ ∃ L,
      RefundCaseService.create_refund_request support sc cust lines' dd'
        new_id' now' today' later = (Raise (conflict_exception L), later)
      ∧ mkConflict new_id pid PENDING ∈ L.
Proof.
  intros Hcreate Hlater Hvalid Hsc Hown Hopen Hreq Hreq'.
  pose proof (create_refund_request_outcome support table sc cust lines dd
                new_id now today) as Hout.
  rewrite Hcreate in Hout. destruct Hout as (-> & c0 & Hsc0 & Hfactory).
  split; [apply elem_of_app; right; apply list_elem_of_here|].
  destruct (create_from_support_case_returns _ _ _ _ _ _ _ _ _ Hfactory)
    as (ps & t & verdict & Hloop & Hrc).
  destruct (create_loop_returns _ _ _ _ _ _ Hloop) as (new & -> & Hall & _).
  simpl in Hrc.
  assert (∃ p, p ∈ products rc ∧ product_id p = pid) as (p & Hp & Hpid).
  { subst rc. simpl. destruct Hreq as (line & Hline & Hlp).
    clear -Hall Hline Hlp. induction Hall as [|l q ls qs Hlq _ IH].
    - by apply elem_of_nil in Hline.
    - apply elem_of_cons in Hline as [->|Hline].
      + exists q. split; [apply list_elem_of_here|].
        destruct Hlq as (Hq & _). congruence.
      + destruct (IH Hline) as (p & Hp & Hpid). exists p.
        split; [by apply list_elem_of_further|done]. }
  destruct (create_refund_request_at_conflict_check support later sc c cust
              lines' dd' new_id' now' today' v Hvalid Hsc Hown Hopen)
    as (ids & Hmem & Hrun).
  assert (mkConflict new_id pid PENDING
          ∈ RefundCaseRepository.conflicts_loop
              (RefundCaseRepository.find_by_support_case later sc) ids [])
    as Hk.
  { apply elem_of_conflicts_loop. right. exists rc, p. split_and!.
    - apply elem_of_find_by_support_case. split; [done|]. by subst rc.
    - left. by subst rc.
    - done.
    - apply Hmem. by rewrite Hpid.
    - subst rc. simpl. by rewrite Hpid. }
  destruct (RefundCaseRepository.conflicts_loop _ _ _) as [|k0 L0].
  - by apply elem_of_nil in Hk.
  - by exists (k0 :: L0).
Qed.

End ConflictComposition.

Section Validation.
Context `{Runtime}.






End Validation.

Section CreationOutcome.
Context `{Runtime}.






(** X12.  What a creation leaves.  When [create_refund_request] returns, the
    table has grown by exactly the returned record, at its end; the record
    carries the new id, the support case, the requester, the order id of the
    support case, status Pending, no processed_at, agent_id or
    rejection_reason, an eligibility status, and a history of one
    [refund_requested] entry by the requester that records the initial
    status "Pending" and the eligibility verdict.  When it raises, the table
    is what it was. *)
Theorem creation_outcome support (table : list RefundCase) sc cust
    (lines : list ProductLine) dd new_id now today :
  match RefundCaseService.create_refund_request support sc cust lines dd
          new_id now today table with
  | (Ok rc, table') =>
    table' = table ++ [rc]
    ∧ id rc = new_id ∧ support_case_id rc = sc ∧ customer_id rc = cust
    ∧ (∃ c : SupportCase, support !! sc = Some c ∧ order_id rc = sc_order_id c)
    ∧ status rc = PENDING ∧ created_at rc = now
    ∧ processed_at rc = None ∧ agent_id rc = None ∧ rejection_reason rc = None
    ∧ ∃ verdict,
        eligibility_status rc = Some verdict
        ∧ history rc
          = [mkHistoryEntry "refund_requested" now cust
               [("initial_status", "Pending");
                ("eligibility", eligibility_value verdict)]]
  | (Raise _, table') => table' = table
  end.
Proof.
  pose proof (create_refund_request_outcome support table sc cust lines dd
                new_id now today) as Hout.
  destruct (RefundCaseService.create_refund_request _ _ _ _ _ _ _ _ _)
    as [[rc|e] table']; [|done].
  destruct Hout as (-> & c & Hc & Hfactory).
  destruct (create_from_support_case_returns _ _ _ _ _ _ _ _ _ Hfactory)
    as (ps & t & verdict & _ & ->). simpl.
  split_and!; try done; [by exists c|by exists verdict].
Qed.

End CreationOutcome.

Section EligibilityOutcome.
Context `{Runtime}.

(** X13.  The outcome of [calculate_eligibility].  It returns exactly when no
    product of the case has a delivery date that the date parser rejects.
    When it returns, the two counts add up to the number of product lines,
    the eligible count is the number of lines delivered at most 14 days
    back, the status it stores in the record is the one it reports, that
    status is Eligible exactly when no line is ineligible (so also for a
    case without lines) and Ineligible exactly when some line is ineligible
    and none is eligible, and nothing but [eligibility_status] is assigned.
    When it raises, it raises the [ValueError] of the parser and the record,
    its former eligibility status included, is untouched. *)
Theorem calculate_eligibility_outcome dd today (rc : RefundCase) :
  (succeeds (RefundCase.calculate_eligibility dd today) rc
   ↔ ∀ p, p ∈ products rc → ∀ s, read_date today dd (product_id p) ≠ Malformed s)
  ∧ (∀ r rc', RefundCase.calculate_eligibility dd today rc = (Ok r, rc') →
     (r_eligible_count r + r_ineligible_count r = length (products rc))%nat
     ∧ r_eligible_count r
       = length (List.filter (λ p, in_window today dd (product_id p))
                   (products rc))
     ∧ ∃ verdict,
         rc' = RefundCase.set_eligibility_status (Some verdict) rc
         ∧ r_eligibility_status r = eligibility_value verdict
         ∧ (verdict = ELIGIBLE ↔ r_ineligible_count r = 0%nat)
         ∧ (verdict = INELIGIBLE
            ↔ r_eligible_count r = 0%nat ∧ r_ineligible_count r ≠ 0%nat))
  ∧ (∀ e rc', RefundCase.calculate_eligibility dd today rc = (Raise e, rc') →
     rc' = rc ∧ ∃ s, e = RefundCase.invalid_isoformat s).
Proof.
  split_and!.
  - rewrite <- first_malformed_None. unfold succeeds.
    rewrite calculate_eligibility_run, calculate_eligibility_loop_eq.
    destruct (first_malformed today dd (products rc)); simpl.
    + split; [by intros [a Ha]|done].
    + split; [done|]. intros _. by eexists.
  - intros r rc' Hrun.
    destruct (calculate_eligibility_returns _ _ _ _ _ Hrun) as (Hwf & -> & ->).
    simpl. split_and!.
    + rewrite filter_lengths. rewrite first_malformed_None in Hwf.
      clear Hrun. induction (products rc) as [|p ps IH]; simpl; [done|].
      assert (is_Some (line_entry today dd (product_id p))) as [e ->].
      { unfold line_entry.
        pose proof (Hwf p (list_elem_of_here _ _)) as Hp.
        destruct (read_date today dd (product_id p)) as [| s |s n];
          [by eexists| by destruct (Hp s) |by eexists]. }
      simpl. f_equal. apply IH. intros q Hq. apply Hwf.
      by apply list_elem_of_further.
    + apply eligible_count_in_window.
    + eexists. split; [reflexivity|]. split; [reflexivity|].
      unfold RefundCase.overall_status.
      repeat case_decide;
        (split; split; intros;
         repeat match goal with Hc : _ ∧ _ |- _ => destruct Hc end;
         try done; try lia; try (split; [lia|done])).
  - intros e rc'. rewrite calculate_eligibility_run,
      calculate_eligibility_loop_eq.
    destruct (first_malformed today dd (products rc)) as [s|]; simpl; [|done].
    intros [= <- <-]. split; [done|]. by exists s.
Qed.

Lemma check_entry_priced_iff today scp dd pid :
  priced (check_entry today scp dd pid)
  ↔ is_Some (scp !! pid) ∧ ∃ s days, read_date today dd pid = Delivered s days.
Proof.
  unfold check_entry, priced. destruct (scp !! pid) as [product|]; simpl.
  - destruct (read_date today dd pid) as [| s |s days]; simpl.
    + split; [by intros [[? ?] _]|]. by intros (_ & s & days & ?).
    + split; [by intros [[? ?] _]|]. by intros (_ & s' & days & ?).
    + split.
      * intros _. split; [by eexists|]. by exists s, days.
      * intros _. destruct (decide _); split; by eexists.
  - split; [by intros [[? ?] _]|]. by intros [[? ?] _].
Qed.

Lemma validate_refund_eligibility_eq support sc (c : SupportCase) cust ids dd
    today :
  support !! sc = Some c → sc_customer_id c = cust →
  RefundCaseService.validate_refund_eligibility support sc cust ids dd today
  = rbind (RefundCaseService.sum_amounts (num_of_int 0)
             (check_buckets today c dd ids).1)
      (λ te,
         rbind (RefundCaseService.sum_amounts (num_of_int 0)
                  (check_buckets today c dd ids).2)
           (λ ti,
              Ok (mkEligibilityReport
                    (RefundCaseService.overall_status
                       (check_buckets today c dd ids).1
                       (check_buckets today c dd ids).2)
                    (check_buckets today c dd ids).1
                    (check_buckets today c dd ids).2
                    (bool_decide
                       (length (check_buckets today c dd ids).2 = 0%nat))
                    te ti))).
Proof.
  intros Hsc Hown. unfold RefundCaseService.validate_refund_eligibility.
  rewrite Hsc. by destruct (decide (sc_customer_id c ≠ cust)).
Qed.

(** X14.  When the standalone check returns.  For the owner of the support
    case, [validate_refund_eligibility] returns a report exactly when every
    requested product id is on the support case and has a delivery date
    that the parser accepts; for any other list (an id that is not on the
    support case, has no date or has a malformed one) it raises [KeyError]
    on ["price"].  A report it returns lists every requested id in exactly
    one of its two buckets and lists no other id, its two buckets together
    hold one entry per requested id, it has [all_eligible] true exactly when
    its status is "Eligible", which is exactly when every requested id was
    delivered at most 14 days back, and its totals are the sums of price
    times quantity over the two buckets. *)
Theorem standalone_check_outcome support sc (c : SupportCase) cust
    (ids : list string) (dd : gmap string string) (today : Z) :
  support !! sc = Some c → sc_customer_id c = cust →
  let check :=
    RefundCaseService.validate_refund_eligibility support sc cust ids dd today
  in
  let complete :=
    ∀ pid, pid ∈ ids →
      is_Some (RefundCaseService.support_case_products c !! pid)
      ∧ ∃ s days, read_date today dd pid = Delivered s days in
  ((∃ report, check = Ok report) ↔ complete)
  ∧ (¬ complete → check = Raise (KeyError "price"))
  ∧ (∀ report, check = Ok report →
     (length (v_eligible_products report)
      + length (v_ineligible_products report) = length ids)%nat
     ∧ (∀ pid, pid ∈ ids →
        (listed_in (v_eligible_products report) pid
         ∨ listed_in (v_ineligible_products report) pid)
        ∧ ¬ (listed_in (v_eligible_products report) pid
             ∧ listed_in (v_ineligible_products report) pid))
     ∧ (∀ pid,
        listed_in (v_eligible_products report) pid
        ∨ listed_in (v_ineligible_products report) pid → pid ∈ ids)
     ∧ (v_all_eligible report = true ↔ v_eligibility_status report = "Eligible")
     ∧ (v_all_eligible report = true
        ↔ ∀ pid, pid ∈ ids → in_window today dd pid = true)
     ∧ RefundCaseService.sum_amounts (num_of_int 0) (v_eligible_products report)
       = Ok (v_total_eligible_amount report)
     ∧ RefundCaseService.sum_amounts (num_of_int 0)
         (v_ineligible_products report)
       = Ok (v_total_ineligible_amount report)).
Proof.
  intros Hsc Hown check complete.
  set (scp := RefundCaseService.support_case_products c) in *.
  set (es := List.map (check_entry today scp dd) ids).
  assert (check_buckets today c dd ids
          = (List.filter is_eligible es, List.filter is_ineligible es)) as Hb.
  { unfold check_buckets. by rewrite eligibility_loop_eq. }
  assert (Forall priced (check_buckets today c dd ids).2 ↔ complete) as Hiff.
  { rewrite Hb. simpl. rewrite Forall_forall. subst complete. split.
    - intros Hall pid Hpid. apply check_entry_priced_iff.
      destruct (e_eligible (check_entry today scp dd pid)) eqn:Hflag.
      + by apply check_entry_eligible_priced.
      + apply Hall, elem_of_ineligible_filter. split; [|done].
        apply list_elem_of_In, in_map. by apply list_elem_of_In.
    - intros Hall e He. apply elem_of_ineligible_filter in He as [He _].
      apply list_elem_of_In, in_map_iff in He as (pid & <- & Hpid).
      apply check_entry_priced_iff, Hall. by apply list_elem_of_In. }
  destruct (validate_refund_eligibility_run support sc c cust ids dd today
              Hsc Hown) as [Hyes Hno].
  fold check in Hyes, Hno.
  split_and!.
  - rewrite <- Hiff. split.
    + intros [report Hrun].
      destruct (decide (Forall priced (check_buckets today c dd ids).2))
        as [|Hnp]; [done|].
      rewrite (Hno Hnp) in Hrun. done.
    + intros Hp. destruct (Hyes Hp) as (te & ti & Hrun). by eexists.
  - intros Hnot. apply Hno. by rewrite Hiff.
  - intros report Hrun.
    destruct (decide (Forall priced (check_buckets today c dd ids).2))
      as [Hp|Hnp]; [|rewrite (Hno Hnp) in Hrun; done].
    destruct (Hyes Hp) as (te & ti & Hrun').
    pose proof Hrun as Hsums. subst check.
    rewrite (validate_refund_eligibility_eq _ _ _ _ _ _ _ Hsc Hown) in Hsums.
    unfold rbind in Hsums.
    destruct (RefundCaseService.sum_amounts (num_of_int 0)
                (check_buckets today c dd ids).1) as [te'|] eqn:Hte; [|done].
    destruct (RefundCaseService.sum_amounts (num_of_int 0)
                (check_buckets today c dd ids).2) as [ti'|] eqn:Hti; [|done].
    injection Hsums as <-. simpl.
    split_and!; try done.
    + rewrite Hb. simpl. rewrite filter_lengths. subst es. apply length_map.
    + intros pid Hpid. rewrite Hb. simpl. subst es.
      destruct (check_entry_mem today scp dd ids pid Hpid) as [Hin Huniq].
      pose proof (check_entry_id today scp dd pid) as Hid.
      destruct (bucket_of_entry _ pid _ Hin Hid Huniq) as (Hel & Hinel & _).
      rewrite Hel, Hinel.
      destruct (e_eligible (check_entry today scp dd pid));
        (split; [by auto|by intros [? ?]]).
    + intros pid. rewrite Hb. simpl.
      intros [(e & He & Hid)|(e & He & Hid)];
        [apply elem_of_eligible_filter in He as [He _]
        |apply elem_of_ineligible_filter in He as [He _]];
        apply list_elem_of_In, in_map_iff in He as (q & <- & Hq);
        rewrite check_entry_id in Hid; subst q; by apply list_elem_of_In.
    + unfold RefundCaseService.overall_status.
      rewrite bool_decide_eq_true.
      repeat case_decide; split; intros; try done.
    + rewrite bool_decide_eq_true, Hb. simpl. split.
      * intros Hnil pid Hpid.
        apply length_zero_iff_nil in Hnil.
        assert (e_eligible (check_entry today scp dd pid) = true) as Hflag.
        { destruct (e_eligible (check_entry today scp dd pid)) eqn:Hf; [done|].
          assert (check_entry today scp dd pid
                  ∈ List.filter is_ineligible es) as Hin.
          { apply elem_of_ineligible_filter. split; [|done].
            apply list_elem_of_In, in_map. by apply list_elem_of_In. }
          rewrite Hnil in Hin. by apply elem_of_nil in Hin. }
        revert Hflag. unfold check_entry, in_window.
        destruct (scp !! pid); [|done].
        destruct (read_date today dd pid); [done|done|].
        destruct (decide _) as [Hle|]; [|done].
        intros _. by apply bool_decide_eq_true.
      * intros Hall. apply length_zero_iff_nil.
        destruct (List.filter is_ineligible es) as [|e l] eqn:Hf; [done|].
        assert (e ∈ List.filter is_ineligible es) as He
          by (rewrite Hf; apply list_elem_of_here).
        apply elem_of_ineligible_filter in He as [He Hflag].
        apply list_elem_of_In, in_map_iff in He as (pid & <- & Hpid).
        apply list_elem_of_In in Hpid.
        pose proof (Hall pid Hpid) as Hwin.
        destruct (proj1 Hiff Hp pid Hpid) as [[product Hfound] _].
        revert Hflag Hwin. unfold check_entry, in_window. rewrite Hfound.
        destruct (read_date today dd pid); [done|done|].
        destruct (decide _) as [|Hgt]; [done|].
        intros _. by rewrite bool_decide_eq_false_2.
Qed.


End EligibilityOutcome.

Section Listing.
Context `{Runtime}.

Lemma append_inj_l (a x y : string) : a +:+ x = a +:+ y → x = y.
Proof. induction a as [|ch a IH]; simpl; [done|]. intros [= Heq]. auto. Qed.

Lemma append_self (s t : string) : s = s +:+ t → t = "".
Proof.
  induction s as [|ch s IH]; simpl; [done|]. intros [= Heq]. auto.
Qed.

(** The keys deleted after a creation are not listing keys of the same
    customer. *)
Lemma listing_key_not_cleared cust sc (wanted : option string)
    (cache : gmap string (list RefundCase)) :
  RefundCaseService.clear_cache cust sc cache
    !! RefundCaseService.listing_key cust wanted
  = cache !! RefundCaseService.listing_key cust wanted.
Proof.
  unfold RefundCaseService.clear_cache, Cache.delete,
    RefundCaseService.listing_key.
  rewrite lookup_delete_ne by done.
  rewrite lookup_delete_ne; [done|].
  intros Heq. apply append_inj_l, append_self in Heq. done.
Qed.

Lemma sublist_list_filter {A} (f : A → bool) (l : list A) :
  sublist (List.filter f l) l.
Proof.
  induction l as [|x l IH]; simpl; [constructor|].
  destruct (f x); by constructor.
Qed.

(** X16.  A listing that is not served from the cache.  When the cache has
    no listing, or an empty one, under the key of the request,
    [get_customer_refund_cases] reads the table: it returns the customer's
    first 100 refund cases in table order, keeping among these the ones with
    the requested status when a status is given (so a matching case beyond
    the customer's first 100 is not listed), and caches exactly what it
    returns under that key.  Every case returned is a row of the table that
    belongs to the customer. *)
Theorem listing_reads_first_hundred (table : list RefundCase)
    (cust : string) (wanted : option string)
    (cache : gmap string (list RefundCase)) :
  cache !! RefundCaseService.listing_key cust wanted = None
  ∨ cache !! RefundCaseService.listing_key cust wanted = Some [] →
  let listing :=
    RefundCaseService.get_customer_refund_cases table cust wanted cache in
  let page :=
    take 100 (BaseRepository.find_all_by_field "customer_id" cust table) in
  listing.2 = <[RefundCaseService.listing_key cust wanted := listing.1]> cache
  ∧ listing.1
    = match truthy wanted with
      | Some st =>
        List.filter (λ rc, bool_decide (status_value (status rc) = st))
          page
      | None => page
      end
  ∧ (length listing.1 ≤ 100)%nat
  ∧ sublist listing.1 table
  ∧ ∀ rc, rc ∈ listing.1 →
      customer_id rc = cust
      ∧ ∀ st, truthy wanted = Some st → status_value (status rc) = st.
Proof.
  intros Hcache listing page.
  assert (listing
          = (match truthy wanted with
             | Some st =>
               List.filter
                 (λ rc, bool_decide (status_value (status rc) = st)) page
             | None => page
             end,
             <[RefundCaseService.listing_key cust wanted :=
                 match truthy wanted with
                 | Some st =>
                   List.filter
                     (λ rc, bool_decide (status_value (status rc) = st))
                     page
                 | None => page
                 end]> cache)) as Hlisting.
  { subst listing. unfold RefundCaseService.get_customer_refund_cases,
      Cache.get, Cache.set, RefundCaseRepository.find_by_customer,
      BaseRepository.find_page.
    destruct Hcache as [-> | ->]; by rewrite drop_0. }
  rewrite Hlisting. simpl.
  assert (sublist page table ∧ (length page ≤ 100)%nat
          ∧ ∀ rc, rc ∈ page → customer_id rc = cust) as (Hsub & Hlen & Hown).
  { subst page. split_and!.
    - etrans; [apply sublist_take|]. apply sublist_list_filter.
    - rewrite length_take. lia.
    - intros rc Hrc. apply elem_of_take in Hrc as (i & Hrc & _).
      apply list_elem_of_lookup_2 in Hrc.
      unfold BaseRepository.find_all_by_field in Hrc.
      apply list_elem_of_In, filter_In in Hrc as [_ Hrc].
      apply bool_decide_eq_true in Hrc.
      unfold BaseRepository.column in Hrc. simpl in Hrc. congruence. }
  split_and!; try done.
  - destruct (truthy wanted) as [st|]; [|done].
    etrans; [|exact Hlen]. apply sublist_length, sublist_list_filter.
  - destruct (truthy wanted) as [st|]; [|done].
    etrans; [apply sublist_list_filter|done].
  - intros rc Hrc. destruct (truthy wanted) as [st|].
    + apply list_elem_of_In, filter_In in Hrc as [Hrc Hst].
      apply bool_decide_eq_true in Hst. split.
      * by apply Hown, list_elem_of_In.
      * by intros st' [= <-].
    + split; [by apply Hown|done].
Qed.

(** X17.  A cached listing outlives a creation.  The two keys that
    [create_refund_request] deletes after a creation
    ("refund_cases:<customer>" and "support_case:<support case>") are never
    the key of a listing of that customer ("refund_cases:<customer>:<status
    or all>").  So once a non-empty listing of a customer has been returned
    (and cached), the same listing is returned again after that customer
    creates a refund case, whatever the table then holds, and the cache is
    left as it is. *)
Theorem cached_listing_outlives_creation (table table' : list RefundCase)
    (cust sc : string) (wanted : option string)
    (cache : gmap string (list RefundCase)) :
  let first :=
    RefundCaseService.get_customer_refund_cases table cust wanted cache in
  first.1 ≠ [] →
  RefundCaseService.get_customer_refund_cases table' cust wanted
    (RefundCaseService.clear_cache cust sc first.2)
  = (first.1, RefundCaseService.clear_cache cust sc first.2).
Proof.
  intros first Hne.
  assert (first.2 !! RefundCaseService.listing_key cust wanted = Some first.1)
    as Hcached.
  { subst first. unfold RefundCaseService.get_customer_refund_cases,
      Cache.get, Cache.set in *.
    destruct (cache !! RefundCaseService.listing_key cust wanted)
      as [[|case cached]|] eqn:Hc; simpl in *;
      try apply lookup_insert_eq; done. }
  unfold RefundCaseService.get_customer_refund_cases at 1, Cache.get.
  rewrite listing_key_not_cleared, Hcached.
  by destruct first.1.
Qed.

End Listing.

Section Failures.
Context `{Runtime}.

Lemma transition_raise_leaves_table (table : list RefundCase) refund_id
    required message method e :
  (RefundCaseRepository.transition refund_id required message method table).1
  = Raise e →
  (RefundCaseRepository.transition refund_id required message method table).2
  = table.
Proof.
  unfold RefundCaseRepository.transition, bind, get.
  destruct (BaseRepository.find_by_id table refund_id) as [rc|]; [|done].
  destruct (decide _); [done|].
  destruct (method rc) as [[[]|e'] rc']; [|done].
  unfold lift, raise. by destruct (RefundCase.to_dict rc').
Qed.

(** X18.  A repository transition that raises stores nothing.  Whatever the
    reason of the failure (an unknown id, a wrong status, a record that
    cannot be serialised), approve, reject and complete leave the table
    exactly as it was; for an id that is not in the table each of them
    raises NotFoundException("RefundCase", "ID <id>"). *)
Theorem failed_repository_call_stores_nothing (table : list RefundCase)
    (refund_id agent reason : string) (now : Z) :
  (∀ e,
     (fails_with (RefundCaseRepository.approve_refund refund_id agent now)
        table e →
      (RefundCaseRepository.approve_refund refund_id agent now table).2 = table)
     ∧ (fails_with
          (RefundCaseRepository.reject_refund refund_id agent reason now)
          table e →
        (RefundCaseRepository.reject_refund refund_id agent reason now table).2
        = table)
     ∧ (fails_with (RefundCaseRepository.complete_refund refund_id now) table e →
        (RefundCaseRepository.complete_refund refund_id now table).2 = table))
  ∧ (BaseRepository.find_by_id table refund_id = None →
     let not_found := NotFoundException "RefundCase" ("ID " +:+ refund_id) in
     RefundCaseRepository.approve_refund refund_id agent now table
     = (Raise not_found, table)
     ∧ RefundCaseRepository.reject_refund refund_id agent reason now table
       = (Raise not_found, table)
     ∧ RefundCaseRepository.complete_refund refund_id now table
       = (Raise not_found, table)).
Proof.
  split.
  - intros e. split_and!; apply transition_raise_leaves_table.
  - intros Hnone. simpl.
    unfold RefundCaseRepository.approve_refund,
      RefundCaseRepository.reject_refund, RefundCaseRepository.complete_refund,
      RefundCaseRepository.transition, bind, get.
    by rewrite Hnone.
Qed.

(** X19.  The eligibility status follows the recomputations only.  Approve,
    reject and complete never assign [eligibility_status], whether they
    return or raise, so the status of a case and its eligibility verdict are
    not kept in step; and a recomputation depends on the stored lines, the
    dates and the day only: repeating it, with any transitions in between,
    leaves the same verdict. *)
Theorem eligibility_follows_recomputation_only (rc : RefundCase) dd today
    (ops : list operation) :
  (∀ agent reason now,
     eligibility_status (after rc (Approve agent now)) = eligibility_status rc
     ∧ eligibility_status (after rc (Reject agent reason now))
       = eligibility_status rc
     ∧ eligibility_status (after rc (Complete now)) = eligibility_status rc)
  ∧ (Forall (λ op, ∀ dd' today', op ≠ Recompute dd' today') ops →
     eligibility_status
       (after (foldl after (after rc (Recompute dd today)) ops)
          (Recompute dd today))
     = eligibility_status (after rc (Recompute dd today))).
Proof.
  split.
  - intros agent reason now. split_and!.
    + apply approve_keeps_eligibility.
    + apply reject_keeps_eligibility.
    + apply complete_keeps_eligibility.
  - intros Hops.
    assert (∀ rc0 : RefundCase,
              eligibility_status (foldl after rc0 ops) = eligibility_status rc0)
      as Hkeep.
    { induction Hops as [|op ops Hop _ IH]; intros rc0; simpl; [done|].
      rewrite IH.
      destruct op as [agent now|agent reason now|now|dd' today'].
      - apply approve_keeps_eligibility.
      - apply reject_keeps_eligibility.
      - apply complete_keeps_eligibility.
      - by destruct (Hop dd' today'). }
    set (rc1 := after rc (Recompute dd today)).
    set (rc2 := foldl after rc1 ops).
    assert (products rc2 = products rc) as Hps.
    { subst rc2 rc1.
      destruct (after_all_keeps_lines ops (after rc (Recompute dd today)))
        as [-> _].
      by destruct (after_keeps_lines rc (Recompute dd today)) as [-> _]. }
    assert (eligibility_status rc2 = eligibility_status rc1) as Hel
      by apply Hkeep.
    subst rc1. simpl in *. rewrite calculate_eligibility_run, Hps.
    rewrite calculate_eligibility_run in Hel.
    rewrite (calculate_eligibility_run dd today rc).
    destruct (RefundCase.calculate_eligibility_loop today dd (products rc) [] [])
      as [[el inel]|e]; simpl in *; done.
Qed.

End Failures.

(** * The properties at concrete inputs *)

#[local] Existing Instance Example.runtime.

(** Run the call on the left of the equation [H], and nothing else. *)
Ltac run_in H :=
  match type of H with
  | ?call = _ =>
    let v := eval vm_compute in call in change call with v in H
  end.

(** C1 at a Pending case: approve returns, complete raises. *)
Lemma transitions_guarded_by_status_witness :
  let table := [Example.case "R1" "SC1" PENDING] in
  BaseRepository.find_by_id table "R1" = Some (Example.case "R1" "SC1" PENDING)
  ∧ succeeds (RefundCaseRepository.approve_refund "R1" "agentA" 5) table
  ∧ fails_with (RefundCaseRepository.complete_refund "R1" 5) table
      (BusinessRuleException "Only approved refunds can be completed" None).
Proof.
  intros table.
  destruct (transitions_guarded_by_status table "R1"
              (Example.case "R1" "SC1" PENDING) "agentA" "late" 5)
    as (Ha & _ & Hc & _).
  - reflexivity.
  - eexists. reflexivity.
  - split; [reflexivity|]. split.
    + apply Ha. reflexivity.
    + apply Hc. simpl. discriminate.
Defined.

(** C2 at an Approved case: a second approve leaves the table and the
    history as they are. *)
Lemma failed_transition_changes_nothing_witness :
  let rc := Example.case "R1" "SC1" APPROVED in
  status rc ≠ PENDING
  ∧ (RefundCaseRepository.approve_refund "R1" "agentB" 9 [rc]).2 = [rc]
  ∧ length (history (RefundCase.approve_refund "agentB" 9 rc).2)
    = length (history rc).
Proof.
  intros rc.
  destruct (failed_transition_changes_nothing [rc] "R1" rc "agentB" "late" 9)
    as [Hpending _]; [reflexivity|].
  assert (status rc ≠ PENDING) as Hst by (simpl; discriminate).
  destruct (Hpending Hst) as (Htable & _ & Hrc & _).
  split; [done|]. split; [done|]. by rewrite Hrc.
Defined.

(** C3 at the date string "not-a-date": both computations raise. *)
Lemma malformed_date_raises_witness :
  let dd : gmap string string := <["P1" := "not-a-date"]> ∅ in
  let rc := Example.case "R1" "SC1" PENDING in
  fromisoformat "not-a-date" = None
  ∧ (∃ s, fails_with (RefundCase.calculate_eligibility dd Example.today) rc
            (RefundCase.invalid_isoformat s))
  ∧ RefundCaseService.validate_refund_eligibility Example.support "SC1" "C1"
      ["P1"] dd Example.today = Raise (KeyError "price").
Proof.
  intros dd rc.
  destruct (malformed_date_raises Example.today dd "P1" "not-a-date")
    as [Hcalc Hcheck]; [reflexivity|discriminate|reflexivity|].
  split; [reflexivity|]. split.
  - destruct (Hcalc rc Example.stored_P1) as (s & Hs & _).
    + simpl. apply list_elem_of_here.
    + reflexivity.
    + by exists s.
  - apply (Hcheck Example.support "SC1" Example.SC1 "C1" ["P1"]).
    + reflexivity.
    + reflexivity.
    + apply list_elem_of_here.
Defined.

(** C6 at a product id that is not on the support case. *)
Lemma unknown_product_verdict_lost_witness :
  RefundCaseService.overall_status
    (check_buckets Example.today Example.SC1 Example.dates ["P9"]).1
    (check_buckets Example.today Example.SC1 Example.dates ["P9"]).2
  = "Ineligible"
  ∧ RefundCaseService.validate_refund_eligibility Example.support "SC1" "C1"
      ["P9"] Example.dates Example.today = Raise (KeyError "price").
Proof.
  destruct (unknown_product_verdict_lost Example.support "SC1" Example.SC1
              "C1" "P9" Example.dates Example.today) as (_ & Hv & Hr);
    [reflexivity|reflexivity|reflexivity|].
  by split.
Defined.

(** C10 on the support case SC1 of customer C1. *)
Lemma empty_check_is_eligible_witness :
  RefundCaseService.validate_refund_eligibility Example.support "SC1" "C1" []
    Example.dates Example.today
  = Ok (mkEligibilityReport "Eligible" [] [] true 0 0).
Proof.
  apply (empty_check_is_eligible Example.support "SC1" Example.SC1 "C1");
    reflexivity.
Defined.

(** C4 at a request for P1 on SC1, where refund R1 on P1 is Pending. *)
Lemma conflicts_block_creation_witness :
  let table := [Example.case "R1" "SC1" PENDING] in
  RefundCaseService.create_refund_request Example.support "SC1" "C1"
    [Example.P1] Example.dates "R2" 7 Example.today table
  = (Raise (conflict_exception [mkConflict "R1" "P1" PENDING]), table).
Proof.
  intros table.
  destruct (conflicts_block_creation Example.support table "SC1" Example.SC1
              "C1" [Example.P1] Example.dates "R2" 7 Example.today
              (true, "Refund request data is valid"))
    as (Hiff & _); [reflexivity|reflexivity|reflexivity|reflexivity|].
  destruct (proj1 Hiff) as [L HL].
  - exists (mkConflict "R1" "P1" PENDING).
    exists (Example.case "R1" "SC1" PENDING), Example.stored_P1.
    split_and!; try reflexivity.
    + apply list_elem_of_here.
    + by left.
    + apply list_elem_of_here.
    + exists Example.P1. split; [apply list_elem_of_here|reflexivity].
  - reflexivity.
Defined.

(** C4 as first stated fails where an earlier check rejects the request:
    on the closed support case SC2 the request for P1 conflicts with the
    Pending refund R1, and creation is rejected for the status of the
    support case, with no conflict list. *)
Lemma closed_support_case_counterexample :
  ¬ ((∃ k, conflict_of [Example.case "R1" "SC2" PENDING] "SC2" [Example.P1] k)
     ↔ ∃ L, fails_with
              (RefundCaseService.create_refund_request Example.support "SC2"
                 "C1" [Example.P1] Example.dates "R2" 7 Example.today)
              [Example.case "R1" "SC2" PENDING] (conflict_exception L)).
Proof.
  intros [Hto _]. destruct Hto as [L HL].
  - exists (mkConflict "R1" "P1" PENDING).
    exists (Example.case "R1" "SC2" PENDING), Example.stored_P1.
    split_and!; try reflexivity.
    + apply list_elem_of_here.
    + by left.
    + apply list_elem_of_here.
    + exists Example.P1. split; [apply list_elem_of_here|reflexivity].
  - unfold fails_with in HL. run_in HL. discriminate HL.
Qed.

(** The 14-day rule on SC1: P1, delivered 14 days before the evaluation
    date, is eligible; P2, delivered 15 days before, is ineligible by 1
    day. *)
Lemma fourteen_day_rule_example :
  ∃ report,
    RefundCaseService.validate_refund_eligibility Example.support "SC1" "C1"
      ["P1"; "P2"] Example.dates Example.today = Ok report
    ∧ window_rule (v_eligible_products report) (v_ineligible_products report)
        "P1" 14
    ∧ judged (v_ineligible_products report) "P2" false
        "Exceeds 14-day refund window by 1 days".
Proof.
  destruct (RefundCaseService.validate_refund_eligibility Example.support
              "SC1" "C1" ["P1"; "P2"] Example.dates Example.today)
    as [report|e] eqn:Hrun; [|run_in Hrun; discriminate Hrun].
  exists report. split; [done|].
  destruct (fourteen_day_rule Example.today Example.dates)
    as (_ & Hcheck & _).
  split.
  - apply (Hcheck Example.support "SC1" Example.SC1 "C1" ["P1"; "P2"] report
             "P1" "2024-03-01" (Example.ymd2ord 2024 3 1));
      [reflexivity|done|apply list_elem_of_here|by eexists|reflexivity
      |discriminate|reflexivity].
  - destruct (Hcheck Example.support "SC1" Example.SC1 "C1" ["P1"; "P2"] report
                "P2" "2024-02-29" (Example.ymd2ord 2024 2 29))
      as (_ & _ & _ & Hj);
      [reflexivity|done|apply list_elem_of_further, list_elem_of_here
      |by eexists|reflexivity|discriminate|reflexivity|].
    apply Hj. reflexivity.
Qed.

(** C5 at P1 on SC1 with no delivery date: the creation-time calculation
    lists the line with reason "No delivery date available"; the standalone
    check builds an entry with another reason and raises. *)
Lemma undated_product_check_raises_witness :
  let dd : gmap string string := ∅ in
  let rc := Example.case "R1" "SC1" PENDING in
  truthy (dd !! "P1") = None
  ∧ (∃ r, (RefundCase.calculate_eligibility dd Example.today rc).1 = Ok r
          ∧ judged (r_ineligible_products r) "P1" false
              "No delivery date available")
  ∧ judged (check_buckets Example.today Example.SC1 dd ["P1"]).2 "P1" false
      "No delivery date available for product"
  ∧ RefundCaseService.validate_refund_eligibility Example.support "SC1" "C1"
      ["P1"] dd Example.today = Raise (KeyError "price").
Proof.
  intros dd rc.
  destruct (undated_product_check_raises Example.today dd "P1")
    as [Hcalc Hcheck]; [reflexivity|].
  split; [reflexivity|]. split.
  - destruct (Hcalc rc Example.stored_P1) as (r & Hr & Hj & _).
    + simpl. apply list_elem_of_here.
    + reflexivity.
    + reflexivity.
    + by exists r.
  - destruct (Hcheck Example.support "SC1" Example.SC1 "C1" ["P1"])
      as [Hentry Hraise].
    + reflexivity.
    + reflexivity.
    + apply list_elem_of_here.
    + split; [|done]. by destruct Hentry as [Hj _]; [eexists|].
Defined.

(** C7 on the table that holds R1 of customer C1. *)
Lemma read_access_control_witness :
  let table := [Example.case "R1" "SC1" PENDING] in
  RefundCaseService.get_refund_case table "R7" "C1"
  = Raise (NotFoundException "RefundCase" "ID R7")
  ∧ RefundCaseService.get_refund_case table "R1" "C2"
    = Raise (BusinessRuleException
               "Access denied: Customer does not own this refund case" None)
  ∧ RefundCaseService.get_refund_cases_by_support_case Example.support table
      "SC9" "C1"
    = Raise (BusinessRuleException
               "Access denied: Customer does not own this support case" None).
Proof.
  intros table. split_and!.
  - by apply (read_access_control table Example.support "R7" "SC9" "C1").
  - destruct (read_access_control table Example.support "R1" "SC9" "C2")
      as (_ & Hfound & _).
    destruct (Hfound (Example.case "R1" "SC1" PENDING)) as [Hdenied _];
      [reflexivity|].
    apply Hdenied. simpl. discriminate.
  - by apply (read_access_control table Example.support "R1" "SC9" "C1").
Defined.

(** C7 as first stated fails for the listing: the support case SC9 does not
    exist, and the failure is not a not-found error. *)
Lemma missing_support_case_counterexample :
  ¬ (Example.support !! "SC9" = None →
     ∃ resource identifier,
       RefundCaseService.get_refund_cases_by_support_case Example.support []
         "SC9" "C1"
       = Raise (NotFoundException resource identifier)).
Proof.
  intros Hclaim. destruct (Hclaim eq_refl) as (r & i & Hrun).
  run_in Hrun. discriminate Hrun.
Qed.

(** C8 on the request of the end-to-end scenario: 2 x P1 at price 10. *)
Lemma total_refund_amount_fixed_witness :
  ∃ rc,
    RefundCase.create_from_support_case "SC1" "C1" "O1" [Example.P1]
      Example.dates "R1" 100 Example.today = Ok rc
    ∧ total_refund_amount rc = 20
    ∧ total_refund_amount
        (foldl after rc
           [Approve "agentA" 101; Recompute ∅ Example.today; Complete 102])
      = 20.
Proof.
  destruct (RefundCase.create_from_support_case "SC1" "C1" "O1" [Example.P1]
              Example.dates "R1" 100 Example.today) as [rc|e] eqn:Hrun;
    [|run_in Hrun; discriminate Hrun].
  exists rc.
  destruct (total_refund_amount_fixed _ _ _ _ _ _ _ _ rc Hrun)
    as (_ & _ & Hfixed).
  assert (total_refund_amount rc = 20) as Htotal.
  { run_in Hrun. by injection Hrun as <-. }
  split; [done|]. split; [done|]. by rewrite Hfixed.
Defined.

(** C9 on a request whose verdict is Partially Eligible: P2 is judged
    ineligible and is stored as "Eligible" all the same. *)
Lemma line_eligibility_is_constant_witness :
  ∃ rc,
    RefundCase.create_from_support_case "SC1" "C1" "O1"
      [Example.P1; Example.P2] Example.dates "R1" 100 Example.today = Ok rc
    ∧ eligibility_status rc = Some PARTIALLY_ELIGIBLE
    ∧ Forall (λ p, eligibility p = "Eligible")
        (products
           (foldl after rc
              [Recompute Example.dates Example.today; Reject "agentA" "late" 7])).
Proof.
  destruct (RefundCase.create_from_support_case "SC1" "C1" "O1"
              [Example.P1; Example.P2] Example.dates "R1" 100 Example.today)
    as [rc|e] eqn:Hrun; [|run_in Hrun; discriminate Hrun].
  exists rc.
  destruct (line_eligibility_is_constant _ _ _ _ _ _ _ _ rc Hrun
              [Recompute Example.dates Example.today; Reject "agentA" "late" 7])
    as [_ Hall].
  split; [done|]. split; [|done].
  run_in Hrun. by injection Hrun as <-.
Defined.

(** X2 at an Approved case: a reject and a complete later it is not
    Pending. *)
Lemma status_moves_forward_witness :
  status (foldl after (Example.case "R1" "SC1" APPROVED)
            [Reject "agentA" "late" 5; Complete 6]) ≠ PENDING.
Proof.
  apply (status_moves_forward (Example.case "R1" "SC1" APPROVED)
           [Reject "agentA" "late" 5; Complete 6]).
  simpl. discriminate.
Defined.

(** X3 at a Rejected case. *)
Lemma terminal_status_absorbs_witness :
  let rc := Example.case "R1" "SC1" REJECTED in
  let ops := [Approve "agentA" 5; Complete 6; Recompute ∅ Example.today] in
  status (foldl after rc ops) = REJECTED
  ∧ history (foldl after rc ops) = history rc.
Proof.
  intros rc ops.
  destruct (terminal_status_absorbs rc ops) as (Hs & Hh & _); [by left|].
  by split.
Defined.

(** X4 on the request of the end-to-end scenario, approved and completed. *)
Lemma lifecycle_is_kept_witness :
  ∃ rc,
    RefundCase.create_from_support_case "SC1" "C1" "O1" [Example.P1]
      Example.dates "R1" 100 Example.today = Ok rc
    ∧ lifecycle (foldl after rc [Approve "agentA" 101; Complete 102]).
Proof.
  destruct (RefundCase.create_from_support_case "SC1" "C1" "O1" [Example.P1]
              Example.dates "R1" 100 Example.today) as [rc|e] eqn:Hrun;
    [|run_in Hrun; discriminate Hrun].
  exists rc. split; [done|].
  by apply (lifecycle_is_kept _ _ _ _ _ _ _ _ rc
              [Approve "agentA" 101; Complete 102] Hrun).
Defined.

(** X5 at a Pending case: the approved record is stored. *)
Lemma successful_transition_is_stored_witness :
  let table := [Example.case "R1" "SC1" PENDING] in
  ∃ rc',
    stored (RefundCaseRepository.approve_refund "R1" "agentA" 5) table "R1" rc'
    ∧ status rc' = APPROVED.
Proof.
  intros table.
  destruct (successful_transition_is_stored table "R1"
              (Example.case "R1" "SC1" PENDING) "agentA" "late" 5)
    as [Hpending _]; [reflexivity|by eexists|].
  destruct Hpending as [(rc' & Hstored & Hst & _) _]; [reflexivity|].
  by exists rc'.
Defined.

(** X6 at a Pending case: the second approve is refused. *)
Lemma approval_is_not_repeatable_witness :
  let table' :=
    (RefundCaseRepository.approve_refund "R1" "agentA" 5
       [Example.case "R1" "SC1" PENDING]).2 in
  RefundCaseRepository.approve_refund "R1" "agentB" 6 table'
  = (Raise (BusinessRuleException "Only pending refunds can be approved" None),
     table').
Proof.
  intros table'.
  by destruct (approval_is_not_repeatable [Example.case "R1" "SC1" PENDING]
                 "R1" (Example.case "R1" "SC1" PENDING) "agentA" "agentB"
                 "late" 5 6) as (Happrove & _);
    [reflexivity|by eexists|reflexivity|].
Defined.

(** X7 at the Pending refund R1 on P1: once rejected it is not reported. *)
Lemma rejected_refund_stops_conflicting_witness :
  let table := [Example.case "R1" "SC1" PENDING] in
  let table' :=
    (RefundCaseRepository.reject_refund "R1" "agentA" "late" 5 table).2 in
  ¬ reported (RefundCaseRepository.check_existing_refunds table' "SC1" ["P1"])
      (mkConflict "R1" "P1" PENDING).
Proof.
  intros table table' Hreported.
  apply (rejected_refund_stops_conflicting table "R1"
           (Example.case "R1" "SC1" PENDING) "agentA" "late" 5 "SC1" ["P1"])
    in Hreported as [_ Hne]; [|reflexivity|by eexists|reflexivity].
  by apply Hne.
Defined.

(** X9: the request of the end-to-end scenario, made twice. *)
Lemma repeated_claim_is_rejected_witness :
  ∃ rc table',
    RefundCaseService.create_refund_request Example.support "SC1" "C1"
      [Example.P1] Example.dates "R1" 100 Example.today [] = (Ok rc, table')
    ∧ ∃ L,
        RefundCaseService.create_refund_request Example.support "SC1" "C1"
          [Example.P1] Example.dates "R2" 200 Example.today table'
        = (Raise (conflict_exception L), table')
        ∧ mkConflict "R1" "P1" PENDING ∈ L.
Proof.
  destruct (RefundCaseService.create_refund_request Example.support "SC1" "C1"
              [Example.P1] Example.dates "R1" 100 Example.today [])
    as [[rc|e] table'] eqn:Hrun; [|run_in Hrun; discriminate Hrun].
  exists rc, table'. split; [done|].
  assert (requested [Example.P1] "P1") as Hreq.
  { exists Example.P1. split; [apply list_elem_of_here|reflexivity]. }
  destruct (repeated_claim_is_rejected Example.support [] table' "SC1"
              Example.SC1 "C1" [Example.P1] [Example.P1] Example.dates
              Example.dates "R1" "R2" 100 200 Example.today Example.today rc
              table' "P1" (true, "Refund request data is valid") Hrun)
    as [_ Hrejected]; try done.
  run_in Hrun. injection Hrun as <- <-. apply list_elem_of_here.
Defined.



(** X13 on a case whose only line was delivered 14 days back. *)
Lemma calculate_eligibility_outcome_witness :
  succeeds (RefundCase.calculate_eligibility Example.dates Example.today)
    (Example.case "R1" "SC1" PENDING).
Proof.
  apply (calculate_eligibility_outcome Example.dates Example.today
           (Example.case "R1" "SC1" PENDING)).
  intros p Hp s. apply list_elem_of_singleton in Hp. subst p.
  assert (read_date Example.today Example.dates
            (product_id Example.stored_P1) = Delivered "2024-03-01" 14) as ->
    by reflexivity.
  discriminate.
Defined.

(** X14 on SC1: both products are on the support case and dated. *)
Lemma standalone_check_outcome_witness :
  ∃ report,
    RefundCaseService.validate_refund_eligibility Example.support "SC1" "C1"
      ["P1"; "P2"] Example.dates Example.today = Ok report.
Proof.
  destruct (standalone_check_outcome Example.support "SC1" Example.SC1 "C1"
              ["P1"; "P2"] Example.dates Example.today)
    as ([_ Hreturns] & _); [reflexivity|reflexivity|].
  apply Hreturns. intros pid Hpid.
  apply elem_of_cons in Hpid as [->|Hpid];
    [|apply list_elem_of_singleton in Hpid; subst pid].
  - split; [eexists; reflexivity|].
    exists "2024-03-01", 14. reflexivity.
  - split; [eexists; reflexivity|].
    exists "2024-02-29", 15. reflexivity.
Defined.

(** X16 with an empty cache. *)
Lemma listing_reads_first_hundred_witness :
  let table := [Example.case "R1" "SC1" PENDING] in
  let listing :=
    RefundCaseService.get_customer_refund_cases table "C1" None ∅ in
  (length listing.1 ≤ 100)%nat ∧ sublist listing.1 table.
Proof.
  intros table listing.
  destruct (listing_reads_first_hundred table "C1" None ∅)
    as (_ & _ & Hlen & Hsub & _); [by left|].
  by split.
Defined.

(** X17: the listing of C1, cached, is served again on an empty table. *)
Lemma cached_listing_outlives_creation_witness :
  let table := [Example.case "R1" "SC1" PENDING] in
  let first := RefundCaseService.get_customer_refund_cases table "C1" None ∅ in
  (RefundCaseService.get_customer_refund_cases [] "C1" None
     (RefundCaseService.clear_cache "C1" "SC1" first.2)).1
  = table.
Proof.
  intros table first.
  assert (first.1 = table) as Hfirst by reflexivity.
  subst first.
  rewrite (cached_listing_outlives_creation table [] "C1" "SC1" None ∅).
  - exact Hfirst.
  - rewrite Hfirst. discriminate.
Defined.

(** X18 at an id that is not in the table. *)
Lemma failed_repository_call_stores_nothing_witness :
  RefundCaseRepository.approve_refund "R9" "agentA" 5
    [Example.case "R1" "SC1" PENDING]
  = (Raise (NotFoundException "RefundCase" "ID R9"),
     [Example.case "R1" "SC1" PENDING]).
Proof.
  destruct (failed_repository_call_stores_nothing
              [Example.case "R1" "SC1" PENDING] "R9" "agentA" "late" 5)
    as [_ Hmissing].
  by destruct Hmissing as (Happrove & _); [reflexivity|].
Defined.

(** X19: an approval between two recomputations changes no verdict. *)
Lemma eligibility_follows_recomputation_only_witness :
  let rc := Example.case "R1" "SC1" PENDING in
  let rc1 := after rc (Recompute Example.dates Example.today) in
  eligibility_status
    (after (foldl after rc1 [Approve "agentA" 5])
       (Recompute Example.dates Example.today))
  = eligibility_status rc1.
Proof.
  intros rc rc1.
  apply (eligibility_follows_recomputation_only rc Example.dates Example.today
           [Approve "agentA" 5]).
  constructor; [|constructor]. intros dd' today'. discriminate.
Defined.
